(** * Student Management System (assignment_1.py)

    A shallow embedding of the classes [Person], [Student], [Course] and
    [StudentManagementSystem] of [assignment_1.py], and the properties of
    the registry stated over it.

    Python values are dynamically typed: an attribute of an instance that
    was rebuilt by [from_dict] holds whatever the JSON document held.  The
    attributes are therefore values of the type [pyval] below, and the
    operators the program applies to them ([in], iteration, [append],
    subscripting, [get], [items]) are given with the exceptions they raise
    on the wrong kind of value.

    Every method is a function from the state of [self] to an outcome and
    the state after the call: an exception does not undo the assignments
    made before it was raised.

    Objects are represented by their values.  The registry never stores
    one instance under two keys and never lets two instances share a list
    or a dict: [add_student] and [add_course] construct a new instance,
    and [load_data] hands [from_dict] values that [json.load] has just
    built.  A method call on a stored instance is therefore the update of
    the value stored under its key ([on_student], [on_course]).

    A Python [str] is a [string]; its characters are the one-byte
    characters of [string], which is what iterating a [str] yields here.

    The display operations are modelled by the lines they print
    ([Display]).  The menu loop [main_menu] is not modelled: it is made
    of [input], [str.strip], [int] and the text of exceptions. *)

From Stdlib Require Import List String Ascii ZArith Bool Lia.
Import ListNotations.
Local Open Scope string_scope.
Local Open Scope list_scope.

Set Implicit Arguments.

(** ** Insertion-ordered dictionaries with string keys

    A Python [dict] keeps its keys in insertion order; assigning to a key
    that is present keeps its position.  [dict_get] reads the first binding
    of a key, so it agrees with Python on every list whose keys are
    distinct ([dict_wf]), which is what a Python [dict] always is. *)

Definition dict (V : Type) : Type := list (string * V).

Section Dict.
Variable V : Type.

Fixpoint dict_get (k : string) (d : dict V) : option V :=
  match d with
  | [] => None
  | (k', v) :: d' => if String.eqb k k' then Some v else dict_get k d'
  end.

Definition dict_mem (k : string) (d : dict V) : bool :=
  match dict_get k d with Some _ => true | None => false end.

(** [d[k] = v] *)
Fixpoint dict_set (k : string) (v : V) (d : dict V) : dict V :=
  match d with
  | [] => [(k, v)]
  | (k', v') :: d' =>
      if String.eqb k k' then (k, v) :: d' else (k', v') :: dict_set k v d'
  end.

Definition dict_keys (d : dict V) : list string := map fst d.

Definition dict_wf (d : dict V) : Prop := NoDup (dict_keys d).

(** [d.update(items)] *)
Definition dict_update (d : dict V) (items : list (string * V)) : dict V :=
  fold_left (fun acc kv => dict_set (fst kv) (snd kv) acc) items d.
End Dict.

(** ** Python values *)

#[warnings="-register-all"]
Inductive pyval : Type :=
| PNone
| PBool (b : bool)
| PInt (z : Z)
| PFloat (bits : Z)            (* binary64 pattern; never computed with *)
| PStr (s : string)
| PList (l : list pyval)
| PDict (d : dict pyval).

(** ** Exceptions

    A message is an f-string of the program: its template and the values
    it interpolates. *)

Inductive message : Type :=
| StudentIdExists (student_id : string)
    (* "Student ID {student_id} already exists." *)
| StudentIdNotFound (student_id : string)
    (* "Student ID {student_id} not found." *)
| CourseCodeExists (course_code : string)
    (* "Course code {course_code} already exists." *)
| CourseCodeNotFound (course_code : string)
    (* "Course code {course_code} not found." *)
| StudentAlreadyEnrolled (self_student_id : pyval) (course_code : string)
    (* Student.enroll_course:
       "Student {self.student_id} already enrolled in {course_code}." *)
| CourseAlreadyEnrolled (student_id : string) (self_course_code : pyval)
    (* Course.add_student:
       "Student {student_id} already enrolled in {self.course_code}." *)
| StudentNotEnrolledInCourse (self_student_id : pyval) (course_code : string)
    (* Student.add_grade:
       "Student {self.student_id} is not enrolled in course {course_code}." *)
| NotEnrolledIn (student_id course_code : string)
    (* add_grade_for_student:
       "Student {student_id} is not enrolled in {course_code}." *)
| MissingKey (key : string)
    (* the KeyError of a subscript d[key] *)
| IntStrDigitsLimit.
    (* "Exceeds the limit (4300 digits) for integer string conversion ..." *)

Inductive exn : Type :=
| ValueError (m : message)
| KeyError (m : message)
| TypeError
| AttributeError
| FileNotFoundError
| PermissionError
| JSONDecodeError.

Inductive result (A : Type) : Type :=
| Ok (a : A)
| Raise (e : exn).

Arguments Ok {A} a.
Arguments Raise {A} e.

(** ** State and exceptions *)

Definition M (S A : Type) : Type := S -> result A * S.

Definition ret {S A : Type} (a : A) : M S A := fun s => (Ok a, s).

Definition raise {S A : Type} (e : exn) : M S A := fun s => (Raise e, s).

Definition bind {S A B : Type} (m : M S A) (f : A -> M S B) : M S B :=
  fun s =>
    match m s with
    | (Ok a, s') => f a s'
    | (Raise e, s') => (Raise e, s')
    end.

Definition get {S : Type} : M S S := fun s => (Ok s, s).

Definition put {S : Type} (s : S) : M S unit := fun _ => (Ok tt, s).

Definition lift {S A : Type} (r : result A) : M S A := fun s => (r, s).

Declare Scope sms_scope.
Delimit Scope sms_scope with sms.
Notation "x <- m ;; k" := (bind m (fun x => k))
  (at level 61, m at next level, right associativity) : sms_scope.
Notation "m ;; k" := (bind m (fun _ => k))
  (at level 61, right associativity) : sms_scope.
Local Open Scope sms_scope.

(** [for x in l: body(x)] *)
Fixpoint for_each {S A : Type} (l : list A) (body : A -> M S unit) : M S unit :=
  match l with
  | [] => ret tt
  | x :: l' => body x ;; for_each l' body
  end.

(** ** The operators of Python the program uses *)

Definition is_str (x : string) (v : pyval) : bool :=
  match v with PStr s => String.eqb x s | _ => false end.

Definition is_substring (x s : string) : bool :=
  match String.index 0 x s with Some _ => true | None => false end.

Fixpoint py_chars (s : string) : list pyval :=
  match s with
  | EmptyString => []
  | String a s' => PStr (String a EmptyString) :: py_chars s'
  end.

(** [x in v] for a string [x] *)
Definition py_in (x : string) (v : pyval) : result bool :=
  match v with
  | PList l => Ok (existsb (is_str x) l)
  | PDict d => Ok (dict_mem x d)
  | PStr s => Ok (is_substring x s)
  | _ => Raise TypeError
  end.

(** [for x in v] *)
Definition py_iter (v : pyval) : result (list pyval) :=
  match v with
  | PList l => Ok l
  | PDict d => Ok (map PStr (dict_keys d))
  | PStr s => Ok (py_chars s)
  | _ => Raise TypeError
  end.

(** [v.append(x)] *)
Definition py_append (v x : pyval) : result pyval :=
  match v with
  | PList l => Ok (PList (l ++ [x]))
  | _ => Raise AttributeError
  end.

(** [v[k] = x] for a string [k] *)
Definition py_setitem (v : pyval) (k : string) (x : pyval) : result pyval :=
  match v with
  | PDict d => Ok (PDict (dict_set k x d))
  | _ => Raise TypeError
  end.

(** [v[k]] for a string [k] *)
Definition py_getitem (v : pyval) (k : string) : result pyval :=
  match v with
  | PDict d =>
      match dict_get k d with
      | Some x => Ok x
      | None => Raise (KeyError (MissingKey k))
      end
  | _ => Raise TypeError
  end.

(** [v.get(k, default)] *)
Definition py_get (v : pyval) (k : string) (default : pyval) : result pyval :=
  match v with
  | PDict d =>
      match dict_get k d with
      | Some x => Ok x
      | None => Ok default
      end
  | _ => Raise AttributeError
  end.

(** [v.items()] *)
Definition py_items (v : pyval) : result (dict pyval) :=
  match v with
  | PDict d => Ok d
  | _ => Raise AttributeError
  end.

(** The key a value denotes in a dictionary whose keys are strings:
    hashing a list or a dict raises, and a value that is not a string
    equals no key. *)
Definition py_hash_key (v : pyval) : result (option string) :=
  match v with
  | PStr k => Ok (Some k)
  | PList _ | PDict _ => Raise TypeError
  | _ => Ok None
  end.

(** ** The limit on the conversion between integers and text

    The interpreter refuses to convert an integer of more than 4300
    decimal digits (the sign not counted) to text, and text of more than
    4300 digits to an integer: [str], an f-string, [json.dump] and
    [json.load] raise ValueError there. *)

Definition max_str_digits : nat := 4300.

(** [z], not negative, has at most [n] decimal digits. *)
Fixpoint digits_within (n : nat) (z : Z) : bool :=
  match n with
  | O => false
  | S n' => if Z.ltb z 10 then true else digits_within n' (Z.div z 10)
  end.

Definition int_within_limit (z : Z) : bool :=
  digits_within max_str_digits (Z.abs z).

Arguments int_within_limit : simpl never.

(** No integer of [v], at any depth, is beyond the limit. *)
Fixpoint ints_within_limit (v : pyval) : bool :=
  match v with
  | PInt z => int_within_limit z
  | PList l => forallb ints_within_limit l
  | PDict d =>
      forallb (fun kv : string * pyval => let (_, x) := kv in ints_within_limit x) d
  | _ => true
  end.

(** ** Person *)

Module Person.
Record t : Type := mk {
  name : pyval;
  age : pyval;
  address : pyval
}.

Definition init (name age address : pyval) : t := mk name age address.

Definition to_dict (self : t) : dict pyval :=
  [("name", name self); ("age", age self); ("address", address self)].

Definition from_dict (data : pyval) : result t :=
  match py_getitem data "name" with
  | Raise e => Raise e
  | Ok n =>
      match py_getitem data "age" with
      | Raise e => Raise e
      | Ok a =>
          match py_getitem data "address" with
          | Raise e => Raise e
          | Ok ad => Ok (init n a ad)
          end
      end
  end.
End Person.

(** ** Student

    The attributes of the base class are kept flat, as on the Python
    object; [as_person] is the view [super()] works on. *)

Module Student.
Record t : Type := mk {
  name : pyval;
  age : pyval;
  address : pyval;
  student_id : pyval;
  grades : pyval;          (* course_code -> grade *)
  courses : pyval          (* list of course_codes *)
}.

Definition as_person (self : t) : Person.t :=
  Person.mk (name self) (age self) (address self).

Definition init (name age address student_id : pyval) : t :=
  mk name age address student_id (PDict []) (PList []).

Definition set_grades (self : t) (g : pyval) : t :=
  mk (name self) (age self) (address self) (student_id self) g (courses self).

Definition set_courses (self : t) (c : pyval) : t :=
  mk (name self) (age self) (address self) (student_id self) (grades self) c.

Definition add_grade (course_code grade : string) : M t unit :=
  self <- get ;;
  b <- lift (py_in course_code (courses self)) ;;
  if negb b
  then raise (ValueError (StudentNotEnrolledInCourse (student_id self) course_code))
  else
    g <- lift (py_setitem (grades self) course_code (PStr grade)) ;;
    put (set_grades self g).

Definition enroll_course (course_code : string) : M t unit :=
  self <- get ;;
  b <- lift (py_in course_code (courses self)) ;;
  if b
  then raise (ValueError (StudentAlreadyEnrolled (student_id self) course_code))
  else
    c <- lift (py_append (courses self) (PStr course_code)) ;;
    put (set_courses self c).

Definition to_dict (self : t) : dict pyval :=
  let base := Person.to_dict (as_person self) in
  dict_update base
    [("student_id", student_id self);
     ("grades", grades self);
     ("courses", courses self)].

Definition from_dict (data : pyval) : result t :=
  match py_getitem data "name" with
  | Raise e => Raise e
  | Ok n =>
  match py_getitem data "age" with
  | Raise e => Raise e
  | Ok a =>
  match py_getitem data "address" with
  | Raise e => Raise e
  | Ok ad =>
  match py_getitem data "student_id" with
  | Raise e => Raise e
  | Ok sid =>
      let s := init n a ad sid in
      match py_get data "grades" (PDict []) with
      | Raise e => Raise e
      | Ok g =>
          let s := set_grades s g in
          match py_get data "courses" (PList []) with
          | Raise e => Raise e
          | Ok c => Ok (set_courses s c)
          end
      end
  end end end end.
End Student.

(** ** Course *)

Module Course.
Record t : Type := mk {
  course_name : pyval;
  course_code : pyval;
  instructor : pyval;
  students : pyval         (* store student_ids *)
}.

Definition init (course_name course_code instructor : pyval) : t :=
  mk course_name course_code instructor (PList []).

Definition set_students (self : t) (s : pyval) : t :=
  mk (course_name self) (course_code self) (instructor self) s.

Definition add_student (student_id : string) : M t unit :=
  self <- get ;;
  b <- lift (py_in student_id (students self)) ;;
  if b
  then raise (ValueError (CourseAlreadyEnrolled student_id (course_code self)))
  else
    s <- lift (py_append (students self) (PStr student_id)) ;;
    put (set_students self s).

Definition to_dict (self : t) : dict pyval :=
  [("course_name", course_name self);
   ("course_code", course_code self);
   ("instructor", instructor self);
   ("students", students self)].

Definition from_dict (data : pyval) : result t :=
  match py_getitem data "course_name" with
  | Raise e => Raise e
  | Ok n =>
  match py_getitem data "course_code" with
  | Raise e => Raise e
  | Ok cc =>
  match py_getitem data "instructor" with
  | Raise e => Raise e
  | Ok i =>
      let c := init n cc i in
      match py_get data "students" (PList []) with
      | Raise e => Raise e
      | Ok s => Ok (set_students c s)
      end
  end end end.
End Course.

(** ** The file system and the console

    [json.dump] and [json.load] belong to Python's library.  A file is
    represented by the document its text denotes, or by the fact that the
    text is not JSON.  [json.dump] of a value writes the text that
    denotes it, piece by piece: when it comes to an integer beyond the
    limit of the conversion it raises ValueError and leaves the file with
    the text written so far, an object that is not closed.  [json.load]
    raises ValueError on a document with such an integer.  The other
    limits of the interpreter (depth of recursion, memory) are left out. *)

Inductive content : Type :=
| Doc (data : pyval)
| Malformed.

Record Env : Type := mkEnv {
  files : dict content;
  unwritable : list string;   (* paths [open(_, "w")] is refused on *)
  stdout : list string
}.

Definition print (line : string) (e : Env) : Env :=
  mkEnv (files e) (unwritable e) (stdout e ++ [line]).

Definition write_file (filename : string) (c : content) (e : Env) : Env :=
  mkEnv (dict_set filename c (files e)) (unwritable e) (stdout e).

(** The filename [save_data] and [load_data] take when none is given. *)
Definition default_filename : string := "students_courses.json".

(** ** The registry *)

Module StudentManagementSystem.
Record t : Type := mk {
  students : dict Student.t;   (* keyed by student_id *)
  courses : dict Course.t      (* keyed by course_code *)
}.

Definition init : t := mk [] [].

Definition set_students (self : t) (s : dict Student.t) : t :=
  mk s (courses self).

Definition set_courses (self : t) (c : dict Course.t) : t :=
  mk (students self) c.

(** A method call on the [Student] object stored under [student_id]:
    the object is mutated in place, so the registry sees the state the
    call leaves, also when the call raises. *)
Definition on_student {A : Type} (student_id : string) (m : M Student.t A)
  : M t A :=
  fun self =>
    match dict_get student_id (students self) with
    | None => (Raise (KeyError (StudentIdNotFound student_id)), self)
    | Some s =>
        let (r, s') := m s in
        (r, set_students self (dict_set student_id s' (students self)))
    end.

Definition on_course {A : Type} (course_code : string) (m : M Course.t A)
  : M t A :=
  fun self =>
    match dict_get course_code (courses self) with
    | None => (Raise (KeyError (CourseCodeNotFound course_code)), self)
    | Some c =>
        let (r, c') := m c in
        (r, set_courses self (dict_set course_code c' (courses self)))
    end.

(** --- student operations --- *)

Definition add_student (name : string) (age : Z) (address student_id : string)
  : M t unit :=
  self <- get ;;
  if dict_mem student_id (students self)
  then raise (ValueError (StudentIdExists student_id))
  else
    put (set_students self
           (dict_set student_id
              (Student.init (PStr name) (PInt age) (PStr address)
                 (PStr student_id))
              (students self))).

Definition get_student (student_id : string) : M t Student.t :=
  self <- get ;;
  match dict_get student_id (students self) with
  | None => raise (KeyError (StudentIdNotFound student_id))
  | Some s => ret s
  end.

(** --- course operations --- *)

Definition add_course (course_name course_code instructor : string)
  : M t unit :=
  self <- get ;;
  if dict_mem course_code (courses self)
  then raise (ValueError (CourseCodeExists course_code))
  else
    put (set_courses self
           (dict_set course_code
              (Course.init (PStr course_name) (PStr course_code)
                 (PStr instructor))
              (courses self))).

Definition get_course (course_code : string) : M t Course.t :=
  self <- get ;;
  match dict_get course_code (courses self) with
  | None => raise (KeyError (CourseCodeNotFound course_code))
  | Some c => ret c
  end.

(** --- enrollment --- *)

Definition enroll_student_in_course (student_id course_code : string)
  : M t unit :=
  _ <- get_student student_id ;;
  _ <- get_course course_code ;;
  (* perform enrollment *)
  on_student student_id (Student.enroll_course course_code) ;;
  on_course course_code (Course.add_student student_id).

(** --- grades --- *)

Definition add_grade_for_student (student_id course_code grade : string)
  : M t unit :=
  student <- get_student student_id ;;
  b <- lift (py_in course_code (Student.courses student)) ;;
  if negb b
  then raise (ValueError (NotEnrolledIn student_id course_code))
  else on_student student_id (Student.add_grade course_code grade).

(** --- file operations --- *)

(** [{k: to_dict(v) for k, v in items}] *)
Definition dump_all {A : Type} (to_dict : A -> dict pyval) (items : dict A)
  : dict pyval :=
  fold_left (fun acc kv => dict_set (fst kv) (PDict (to_dict (snd kv))) acc)
    items [].

Definition save_data (filename : string) : M (t * Env) unit :=
  fun w =>
    let (self, env) := w in
    let data :=
      PDict [("students", PDict (dump_all Student.to_dict (students self)));
             ("courses", PDict (dump_all Course.to_dict (courses self)))] in
    if existsb (String.eqb filename) (unwritable env)
    then (Raise PermissionError, (self, env))
    else if ints_within_limit data
    then
      let env := write_file filename (Doc data) env in
      (Ok tt,
       (self, print "All student and course data saved successfully." env))
    else
      (Raise (ValueError IntStrDigitsLimit),
       (self, write_file filename Malformed env)).

(** [{k: from_dict(v) for k, v in items}]: the first [from_dict] that
    raises ends the comprehension. *)
Fixpoint load_all {A : Type} (from_dict : pyval -> result A)
    (items : dict pyval) (acc : dict A) : result (dict A) :=
  match items with
  | [] => Ok acc
  | (k, v) :: items' =>
      match from_dict v with
      | Raise e => Raise e
      | Ok a => load_all from_dict items' (dict_set k a acc)
      end
  end.

(** The body of the consistency loop for one [sid] of course [cc]. *)
Definition repair_link (cc : string) (sid : pyval) : M t unit :=
  key <- lift (py_hash_key sid) ;;
  self <- get ;;
  match key with
  | None => ret tt
  | Some k =>
      match dict_get k (students self) with
      | None => ret tt
      | Some s =>
          b <- lift (py_in cc (Student.courses s)) ;;
          if negb b
          then
            c <- lift (py_append (Student.courses s) (PStr cc)) ;;
            put (set_students self
                   (dict_set k (Student.set_courses s c) (students self)))
          else ret tt
      end
  end.

Definition repair_course (item : string * Course.t) : M t unit :=
  let (cc, c) := item in
  sids <- lift (py_iter (Course.students c)) ;;
  for_each sids (repair_link cc).

Definition read_json (filename : string) (env : Env) : result pyval :=
  match dict_get filename (files env) with
  | None => Raise FileNotFoundError
  | Some Malformed => Raise JSONDecodeError
  | Some (Doc data) =>
      if ints_within_limit data then Ok data
      else Raise (ValueError IntStrDigitsLimit)
  end.

(** The statements of [load_data] after the file has been parsed. *)
Definition rebuild (data : pyval) : M t unit :=
  students <- lift (py_get data "students" (PDict [])) ;;
  courses <- lift (py_get data "courses" (PDict [])) ;;
  (* rebuild students and courses *)
  sitems <- lift (py_items students) ;;
  ss <- lift (load_all Student.from_dict sitems []) ;;
  self <- get ;;
  put (set_students self ss) ;;
  citems <- lift (py_items courses) ;;
  cs <- lift (load_all Course.from_dict citems []) ;;
  self <- get ;;
  put (set_courses self cs) ;;
  (* ensure consistency *)
  self <- get ;;
  for_each (StudentManagementSystem.courses self) repair_course.

Definition load_data (filename : string) : M (t * Env) unit :=
  fun w =>
    let (self, env) := w in
    match read_json filename env with
    | Raise e => (Raise e, (self, env))
    | Ok data =>
        match rebuild data self with
        | (Raise e, self') => (Raise e, (self', env))
        | (Ok _, self') => (Ok tt, (self', print "Data loaded successfully." env))
        end
    end.
End StudentManagementSystem.

(** ** Vocabulary of the properties *)

(** How many elements of [l] are the string [x]. *)
Definition occurrences (x : string) (l : list pyval) : nat :=
  List.length (filter (is_str x) l).

(** The program's own test of enrollment: [course_code in student.courses]. *)
Definition enrolled (course_code : string) (s : Student.t) : Prop :=
  py_in course_code (Student.courses s) = Ok true.

(** [course_code] is a key of the student's grades mapping. *)
Definition has_grade (course_code : string) (s : Student.t) : Prop :=
  match Student.grades s with
  | PDict g => dict_mem course_code g = true
  | _ => False
  end.

(** Every graded course of every student is a course the student is
    enrolled in. *)
Definition grades_within_courses (R : StudentManagementSystem.t) : Prop :=
  forall k s, dict_get k (StudentManagementSystem.students R) = Some s ->
  forall c, has_grade c s -> enrolled c s.

(** Every entity is stored under its own identifier. *)
Definition keys_match (R : StudentManagementSystem.t) : Prop :=
  (forall k s, dict_get k (StudentManagementSystem.students R) = Some s ->
               Student.student_id s = PStr k) /\
  (forall k c, dict_get k (StudentManagementSystem.courses R) = Some c ->
               Course.course_code c = PStr k).

(** The calls of the four mutating operations of the registry. *)
Inductive op : Type :=
| AddStudent (name : string) (age : Z) (address student_id : string)
| AddCourse (course_name course_code instructor : string)
| Enroll (student_id course_code : string)
| AddGrade (student_id course_code grade : string).

Definition run_op (o : op) : M StudentManagementSystem.t unit :=
  match o with
  | AddStudent name age address student_id =>
      StudentManagementSystem.add_student name age address student_id
  | AddCourse course_name course_code instructor =>
      StudentManagementSystem.add_course course_name course_code instructor
  | Enroll student_id course_code =>
      StudentManagementSystem.enroll_student_in_course student_id course_code
  | AddGrade student_id course_code grade =>
      StudentManagementSystem.add_grade_for_student student_id course_code grade
  end.

(** The registries a sequence of such calls builds from the empty one;
    a call that raises counts with the state it leaves. *)
Inductive reachable : StudentManagementSystem.t -> Prop :=
| reachable_init : reachable StudentManagementSystem.init
| reachable_step R o : reachable R -> reachable (snd (run_op o R)).

(** The assignments the four operations are made of. *)
Inductive mutation (R : StudentManagementSystem.t)
  : StudentManagementSystem.t -> Prop :=
| mut_new_student name age address id :
    dict_get id (StudentManagementSystem.students R) = None ->
    mutation R
      (StudentManagementSystem.set_students R
         (dict_set id
            (Student.init (PStr name) (PInt age) (PStr address) (PStr id))
            (StudentManagementSystem.students R)))
| mut_new_course name code instructor :
    dict_get code (StudentManagementSystem.courses R) = None ->
    mutation R
      (StudentManagementSystem.set_courses R
         (dict_set code
            (Course.init (PStr name) (PStr code) (PStr instructor))
            (StudentManagementSystem.courses R)))
| mut_student_enrolls sid st l cc :
    dict_get sid (StudentManagementSystem.students R) = Some st ->
    Student.courses st = PList l ->
    mutation R
      (StudentManagementSystem.set_students R
         (dict_set sid (Student.set_courses st (PList (l ++ [PStr cc])))
            (StudentManagementSystem.students R)))
| mut_course_lists cc co m sid st :
    dict_get cc (StudentManagementSystem.courses R) = Some co ->
    Course.students co = PList m ->
    dict_get sid (StudentManagementSystem.students R) = Some st ->
    enrolled cc st ->
    mutation R
      (StudentManagementSystem.set_courses R
         (dict_set cc (Course.set_students co (PList (m ++ [PStr sid])))
            (StudentManagementSystem.courses R)))
| mut_grade sid st g cc grade :
    dict_get sid (StudentManagementSystem.students R) = Some st ->
    Student.grades st = PDict g ->
    enrolled cc st ->
    mutation R
      (StudentManagementSystem.set_students R
         (dict_set sid
            (Student.set_grades st (PDict (dict_set cc (PStr grade) g)))
            (StudentManagementSystem.students R))).

Inductive mutations (R : StudentManagementSystem.t)
  : StudentManagementSystem.t -> Prop :=
| mutations_refl : mutations R R
| mutations_step R1 R2 : mutations R R1 -> mutation R1 R2 -> mutations R R2.

(** What the consistency loop of [load_data] may do to a student: append
    course codes to its course list, and nothing else. *)
Inductive extends (s : Student.t) : Student.t -> Prop :=
| extends_same : extends s s
| extends_more l l' :
    Student.courses s = PList l ->
    extends s (Student.set_courses s (PList (l ++ l'))).

Definition grows (S S' : dict Student.t) : Prop :=
  forall k,
    match dict_get k S, dict_get k S' with
    | Some s, Some s' => extends s s'
    | None, None => True
    | _, _ => False
    end.

Definition repairs (R R' : StudentManagementSystem.t) : Prop :=
  StudentManagementSystem.courses R' = StudentManagementSystem.courses R /\
  grows (StudentManagementSystem.students R) (StudentManagementSystem.students R').

(** The link from course [cc] to the listed value [sid] is in place: [sid]
    can be looked up, and if it is the id of a student of [S], that
    student is enrolled in [cc]. *)
Definition link_ok (S : dict Student.t) (cc : string) (sid : pyval) : Prop :=
  match py_hash_key sid with
  | Raise _ => False
  | Ok None => True
  | Ok (Some k) =>
      match dict_get k S with
      | Some s => enrolled cc s
      | None => True
      end
  end.

(** Every course's student list can be iterated, and every student it
    lists that exists has the course in its course list. *)
Definition links_ok (R : StudentManagementSystem.t) : Prop :=
  forall cc c, In (cc, c) (StudentManagementSystem.courses R) ->
  exists sids,
    py_iter (Course.students c) = Ok sids /\
    forall sid, In sid sids -> link_ok (StudentManagementSystem.students R) cc sid.

(** What the four operations maintain besides: both collections have
    distinct keys, and a course lists only ids of students of the
    registry, each of them enrolled in the course. *)
Definition enrollment_consistent (R : StudentManagementSystem.t) : Prop :=
  dict_wf (StudentManagementSystem.students R) /\
  dict_wf (StudentManagementSystem.courses R) /\
  forall cc c, dict_get cc (StudentManagementSystem.courses R) = Some c ->
  exists m,
    Course.students c = PList m /\
    forall v, In v m ->
    exists k s,
      v = PStr k /\
      dict_get k (StudentManagementSystem.students R) = Some s /\
      enrolled cc s.

(** A student record of a document keeps its grades within its courses. *)
Definition record_grades_ok (sdata : pyval) : Prop :=
  forall s, Student.from_dict sdata = Ok s ->
  forall c, has_grade c s -> enrolled c s.

Definition document_grades_ok (data : pyval) : Prop :=
  forall students sitems,
    py_get data "students" (PDict []) = Ok students ->
    py_items students = Ok sitems ->
    forall k sdata, In (k, sdata) sitems -> record_grades_ok sdata.

(** The document [save_data] writes for a registry. *)
Definition saved_document (R : StudentManagementSystem.t) : pyval :=
  PDict [("students",
          PDict (StudentManagementSystem.dump_all Student.to_dict
                   (StudentManagementSystem.students R)));
         ("courses",
          PDict (StudentManagementSystem.dump_all Course.to_dict
                   (StudentManagementSystem.courses R)))].

(** The registries and files the statements are instantiated on. *)

Definition alice : Student.t :=
  Student.init (PStr "Alice") (PInt 20) (PStr "X St") (PStr "S1").

Definition algo : Course.t :=
  Course.init (PStr "Algo") (PStr "C1") (PStr "Dr. B").

Definition registry_alice_algo : StudentManagementSystem.t :=
  StudentManagementSystem.mk [("S1", alice)] [("C1", algo)].

Definition run_ops (l : list op) (R : StudentManagementSystem.t)
  : StudentManagementSystem.t :=
  fold_left (fun R o => snd (run_op o R)) l R.

(** Alice enrolled in Algo and graded "B". *)
Definition registry_graded : StudentManagementSystem.t :=
  run_ops [AddStudent "Alice" 20 "X St" "S1";
           AddCourse "Algo" "C1" "Dr. B";
           Enroll "S1" "C1";
           AddGrade "S1" "C1" "B"]
    StudentManagementSystem.init.

(** Algo lists Alice, whose course list is empty: the state after
    [get_course("C1").add_student("S1")] on [registry_alice_algo]. *)
Definition registry_unlinked : StudentManagementSystem.t :=
  StudentManagementSystem.mk
    [("S1", alice)]
    [("C1", Course.set_students algo (PList [PStr "S1"]))].

Definition env_empty : Env := mkEnv [] [] [].

Definition env_with (filename : string) (c : content) : Env :=
  mkEnv [(filename, c)] [] [].

(** A document whose only course record has no field. *)
Definition doc_course_without_fields : pyval :=
  PDict [("students", PDict []);
         ("courses", PDict [("C1", PDict [])])].

(** A document whose student has a grade for a course it does not list. *)
Definition doc_grade_without_course : pyval :=
  PDict [("students",
          PDict [("S1", PDict [("name", PStr "Alice"); ("age", PInt 20);
                               ("address", PStr "X St");
                               ("student_id", PStr "S1");
                               ("grades", PDict [("C1", PStr "A")]);
                               ("courses", PList [])])]);
         ("courses", PDict [])].

(** A document that stores the course with code "C1" under the key "K". *)
Definition doc_key_differs : pyval :=
  PDict [("students",
          PDict [("S1", PDict (Student.to_dict alice))]);
         ("courses",
          PDict [("K", PDict (Course.to_dict
                                (Course.set_students algo (PList [PStr "S1"]))))])].

(** A document in which Alice lists "C1" and the course "C1" lists nobody. *)
Definition doc_student_side_only : pyval :=
  PDict [("students",
          PDict [("S1", PDict (Student.to_dict
                                 (Student.set_courses alice (PList [PStr "C1"]))))]);
         ("courses",
          PDict [("C1", PDict (Course.to_dict algo))])].

(** ** Vocabulary of the further properties *)

(** The registry after the student-side append of an enrollment, and
    after both appends. *)
Definition enroll_student_side (R : StudentManagementSystem.t)
    (s c : string) (st : Student.t) (l : list pyval)
  : StudentManagementSystem.t :=
  StudentManagementSystem.set_students R
    (dict_set s (Student.set_courses st (PList (l ++ [PStr c])))
       (StudentManagementSystem.students R)).

Definition enroll_both_sides (R : StudentManagementSystem.t)
    (s c : string) (st : Student.t) (co : Course.t) (l m : list pyval)
  : StudentManagementSystem.t :=
  StudentManagementSystem.set_courses (enroll_student_side R s c st l)
    (dict_set c (Course.set_students co (PList (m ++ [PStr s])))
       (StudentManagementSystem.courses R)).

(** Every course code a student lists is the key of a course that lists
    the student, and no code is listed twice. *)
Definition student_side_ok (R : StudentManagementSystem.t) : Prop :=
  forall s st, dict_get s (StudentManagementSystem.students R) = Some st ->
  exists l,
    Student.courses st = PList l /\
    NoDup l /\
    forall v, In v l ->
    exists c co m,
      v = PStr c /\
      dict_get c (StudentManagementSystem.courses R) = Some co /\
      Course.students co = PList m /\
      In (PStr s) m.

(** No course lists a student twice. *)
Definition course_side_nodup (R : StudentManagementSystem.t) : Prop :=
  forall c co, dict_get c (StudentManagementSystem.courses R) = Some co ->
  exists m, Course.students co = PList m /\ NoDup m.

Definition sound (R : StudentManagementSystem.t) : Prop :=
  enrollment_consistent R /\ student_side_ok R /\ course_side_nodup R.

(** The scalar fields and the grades have the types the constructors and
    [add_grade] give them. *)
Definition student_typed (k : string) (st : Student.t) : Prop :=
  exists n a ad g,
    Student.name st = PStr n /\
    Student.age st = PInt a /\
    Student.address st = PStr ad /\
    Student.student_id st = PStr k /\
    Student.grades st = PDict g /\
    forall c v, dict_get c g = Some v -> exists grade, v = PStr grade.

Definition course_typed (k : string) (co : Course.t) : Prop :=
  exists n i,
    Course.course_name co = PStr n /\
    Course.course_code co = PStr k /\
    Course.instructor co = PStr i.

Definition fields_typed (R : StudentManagementSystem.t) : Prop :=
  (forall k st, dict_get k (StudentManagementSystem.students R) = Some st ->
                student_typed k st) /\
  (forall k co, dict_get k (StudentManagementSystem.courses R) = Some co ->
                course_typed k co).

(** Algo lists Alice, who does not list Algo, and Bob is enrolled:
    the registry [registry_unlinked] with one more student. *)
Definition registry_half_linked : StudentManagementSystem.t :=
  StudentManagementSystem.mk
    [("S1", alice);
     ("S2", Student.mk (PStr "Bob") (PInt 21) (PStr "Y St") (PStr "S2")
              (PDict []) (PList [PStr "C1"]))]
    [("C1", Course.set_students algo (PList [PStr "S1"; PStr "S2"]))].

(** A document whose only student record has no field. *)
Definition doc_student_without_fields : pyval :=
  PDict [("students", PDict [("S1", PDict [])]);
         ("courses", PDict [])].

(** A document without the key "courses". *)
Definition doc_students_only : pyval :=
  PDict [("students",
          PDict [("S1", PDict (Student.to_dict
                                 (Student.set_courses alice (PList [PStr "C1"]))))])].

(** The consistency loop keeps the keys of the student collection. *)
Definition same_student_keys (R R' : StudentManagementSystem.t) : Prop :=
  dict_keys (StudentManagementSystem.students R') =
  dict_keys (StudentManagementSystem.students R).

(** ** The display operations

    What a display operation prints is a list of lines; a line is the
    concatenation of its pieces, a piece being literal text or the text
    [str(v)] of a value.  [print(a, b)] puts a space between its
    arguments.  The state of a display operation is the console so far:
    the lines printed before an exception stay printed.

    [str(v)] raises ValueError for an integer beyond the limit of the
    conversion.  Of the fields displayed, age alone is an int by its
    annotation and takes whatever [add_student] is given; the others hold
    strings, or what [json.load] built, which is within the limit. *)

Inductive piece : Type :=
| Text (s : string)
| Shown (v : pyval).            (* str(v) *)

Definition line : Type := list piece.

Definition console : Type := list line.

Definition print_line (l : line) : M console unit :=
  fun out => (Ok tt, out ++ [l]).

(** The piece [{v}] of an f-string. *)
Definition py_format (v : pyval) : result piece :=
  if ints_within_limit v then Ok (Shown v)
  else Raise (ValueError IntStrDigitsLimit).

(** The truth value of [v] in a condition. *)
Definition py_truthy (v : pyval) : bool :=
  match v with
  | PNone => false
  | PBool b => b
  | PInt z => negb (Z.eqb z 0)
  | PFloat bits => negb (Z.eqb bits 0) && negb (Z.eqb bits (2 ^ 63))
  | PStr s => negb (String.eqb s "")
  | PList l => match l with [] => false | _ => true end
  | PDict d => match d with [] => false | _ => true end
  end.

(** The strings of a list of values, when all of them are strings. *)
Fixpoint all_strings (l : list pyval) : option (list string) :=
  match l with
  | [] => Some []
  | PStr s :: l' =>
      match all_strings l' with
      | Some ss => Some (s :: ss)
      | None => None
      end
  | _ :: _ => None
  end.

(** [sep.join(l)] for a list [l] *)
Definition py_join_list (sep : string) (l : list pyval) : result string :=
  match all_strings l with
  | Some ss => Ok (String.concat sep ss)
  | None => Raise TypeError
  end.

(** [sep.join(v)] *)
Definition py_join (sep : string) (v : pyval) : result string :=
  match py_iter v with
  | Ok l => py_join_list sep l
  | Raise e => Raise e
  end.

Module Display.

(** [Person.display_person_info], on the attributes a Student has from
    Person. *)
Definition display_person_info (self : Person.t) : M console unit :=
  print_line [Text "Name: "; Shown (Person.name self)] ;;
  age <- lift (py_format (Person.age self)) ;;
  print_line [Text "Age: "; age] ;;
  print_line [Text "Address: "; Shown (Person.address self)].

(** [Student.display_student_info] *)
Definition display_student_info (self : Student.t) : M console unit :=
  print_line [Text "Student Information:"] ;;
  display_person_info (Student.as_person self) ;;
  print_line [Text "ID: "; Shown (Student.student_id self)] ;;
  joined <- (if py_truthy (Student.courses self)
             then lift (py_join ", " (Student.courses self))
             else ret "None") ;;
  print_line [Text "Enrolled Courses:"; Text " "; Text joined] ;;
  print_line [Text "Grades:"; Text " ";
              if py_truthy (Student.grades self)
              then Shown (Student.grades self)
              else Text "{}"].

(** [students_lookup[sid].name for sid in sids if sid in students_lookup] *)
Fixpoint lookup_names (students_lookup : dict Student.t) (sids : list pyval)
  : result (list pyval) :=
  match sids with
  | [] => Ok []
  | sid :: sids' =>
      match py_hash_key sid with
      | Raise e => Raise e
      | Ok key =>
          let here :=
            match key with
            | Some k =>
                match dict_get k students_lookup with
                | Some s => [Student.name s]
                | None => []
                end
            | None => []
            end in
          match lookup_names students_lookup sids' with
          | Raise e => Raise e
          | Ok names => Ok (here ++ names)
          end
      end
  end.

(** [Course.display_course_info]; [None] is the default of
    [students_lookup]. *)
Definition display_course_info (self : Course.t)
    (students_lookup : option (dict Student.t)) : M console unit :=
  print_line [Text "Course Information:"] ;;
  print_line [Text "Course Name: "; Shown (Course.course_name self)] ;;
  print_line [Text "Code: "; Shown (Course.course_code self)] ;;
  print_line [Text "Instructor: "; Shown (Course.instructor self)] ;;
  match students_lookup with
  | Some ((_ :: _) as lookup) =>
      sids <- lift (py_iter (Course.students self)) ;;
      names <- lift (lookup_names lookup sids) ;;
      joined <- (match names with
                 | [] => ret "None"
                 | _ => lift (py_join_list ", " names)
                 end) ;;
      print_line [Text "Enrolled Students:"; Text " "; Text joined]
  | _ =>
      joined <- (if py_truthy (Course.students self)
                 then lift (py_join ", " (Course.students self))
                 else ret "None") ;;
      print_line [Text "Enrolled Students:"; Text " "; Text joined]
  end.

(** [StudentManagementSystem.display_student] *)
Definition display_student (student_id : string)
    (self : StudentManagementSystem.t) : M console unit :=
  match StudentManagementSystem.get_student student_id self with
  | (Raise e, _) => raise e
  | (Ok student, _) => display_student_info student
  end.

(** [StudentManagementSystem.display_course] *)
Definition display_course (course_code : string)
    (self : StudentManagementSystem.t) : M console unit :=
  match StudentManagementSystem.get_course course_code self with
  | (Raise e, _) => raise e
  | (Ok course, _) =>
      display_course_info course (Some (StudentManagementSystem.students self))
  end.

End Display.

(** The four lines every course display starts with. *)
Definition course_header (co : Course.t) : console :=
  [[Text "Course Information:"];
   [Text "Course Name: "; Shown (Course.course_name co)];
   [Text "Code: "; Shown (Course.course_code co)];
   [Text "Instructor: "; Shown (Course.instructor co)]].

(** The names of those of the students [ss] that are in the collection. *)
Definition names_of_known (S : dict Student.t) (ss : list string) : list pyval :=
  flat_map (fun s => match dict_get s S with
                     | Some st => [Student.name st]
                     | None => []
                     end) ss.

(** Algo lists Alice and an id that is not in the registry. *)
Definition registry_unknown_id : StudentManagementSystem.t :=
  StudentManagementSystem.mk
    [("S1", Student.set_courses alice (PList [PStr "C1"]))]
    [("C1", Course.set_students algo (PList [PStr "S1"; PStr "S7"]))].

(** No student, and a course that lists two ids. *)
Definition registry_no_student : StudentManagementSystem.t :=
  StudentManagementSystem.mk
    []
    [("C1", Course.set_students algo (PList [PStr "S1"; PStr "S7"]))].

(** No integer stored in the entity, at any depth of any field, is beyond
    the limit of the conversion. *)
Definition student_within_limit (s : Student.t) : bool :=
  ints_within_limit (Student.name s) &&
  ints_within_limit (Student.age s) &&
  ints_within_limit (Student.address s) &&
  ints_within_limit (Student.student_id s) &&
  ints_within_limit (Student.grades s) &&
  ints_within_limit (Student.courses s).

Definition course_within_limit (c : Course.t) : bool :=
  ints_within_limit (Course.course_name c) &&
  ints_within_limit (Course.course_code c) &&
  ints_within_limit (Course.instructor c) &&
  ints_within_limit (Course.students c).

Definition registry_within_limit (R : StudentManagementSystem.t) : bool :=
  forallb (fun kv : string * Student.t => student_within_limit (snd kv))
    (StudentManagementSystem.students R) &&
  forallb (fun kv : string * Course.t => course_within_limit (snd kv))
    (StudentManagementSystem.courses R).

(** One student whose age has 4301 digits. *)
Definition registry_long_age : StudentManagementSystem.t :=
  run_ops [AddStudent "Alice" (10 ^ 4300) "X St" "S1"]
    StudentManagementSystem.init.

(** A document in which Alice lists "C1", Bob lists nothing, and the
    course "C1" lists Bob only. *)
Definition doc_two_directions : pyval :=
  PDict [("students",
          PDict [("S1", PDict (Student.to_dict
                                 (Student.set_courses alice (PList [PStr "C1"]))));
                 ("S2", PDict (Student.to_dict
                                 (Student.init (PStr "Bob") (PInt 21)
                                    (PStr "Y St") (PStr "S2"))))]);
         ("courses",
          PDict [("C1", PDict (Course.to_dict
                                 (Course.set_students algo (PList [PStr "S2"]))))])].

(** The consistency loop brings in no integer beyond the limit. *)
Definition keeps_within_limit (R R' : StudentManagementSystem.t) : Prop :=
  registry_within_limit R = true -> registry_within_limit R' = true.


Unset Implicit Arguments.

(** * Properties *)

(** ** Dictionaries *)

Section DictFacts.
Context {V : Type}.
Implicit Types (d : dict V) (k : string) (v : V).

Lemma dict_get_set_eq k v d : dict_get k (dict_set k v d) = Some v.
Proof.
  induction d as [|[k' v'] d IH]; simpl.
  - now rewrite String.eqb_refl.
  - destruct (String.eqb k k') eqn:E; simpl.
    + now rewrite String.eqb_refl.
    + now rewrite E.
Qed.

Lemma dict_get_set_neq k k' v d :
  k <> k' -> dict_get k' (dict_set k v d) = dict_get k' d.
Proof.
  intros Hne. induction d as [|[k0 v0] d IH]; simpl.
  - destruct (String.eqb k' k) eqn:E; [|reflexivity].
    apply String.eqb_eq in E. congruence.
  - destruct (String.eqb k k0) eqn:E; simpl.
    + apply String.eqb_eq in E. subst k0.
      destruct (String.eqb k' k) eqn:E'; [|reflexivity].
      apply String.eqb_eq in E'. congruence.
    + now rewrite IH.
Qed.

Lemma dict_set_same k v d : dict_get k d = Some v -> dict_set k v d = d.
Proof.
  induction d as [|[k' v'] d IH]; simpl; [discriminate|].
  destruct (String.eqb k k') eqn:E.
  - apply String.eqb_eq in E. intros [= ->]. now subst.
  - intros H. now rewrite IH.
Qed.

Lemma dict_mem_false k d : dict_mem k d = false <-> dict_get k d = None.
Proof.
  unfold dict_mem. destruct (dict_get k d); split; congruence.
Qed.

Lemma dict_get_In k v d : dict_get k d = Some v -> In (k, v) d.
Proof.
  induction d as [|[k' v'] d IH]; simpl; [discriminate|].
  destruct (String.eqb k k') eqn:E.
  - apply String.eqb_eq in E. intros [= ->]. left. now subst.
  - intros H. right. now apply IH.
Qed.

Lemma dict_get_None_keys k d : dict_get k d = None <-> ~ In k (dict_keys d).
Proof.
  induction d as [|[k' v'] d IH]; simpl.
  - split; [intros _ []|reflexivity].
  - destruct (String.eqb k k') eqn:E.
    + apply String.eqb_eq in E. subst. split; [discriminate|].
      intros H. exfalso. apply H. now left.
    + apply String.eqb_neq in E. rewrite IH. split.
      * intros H [H'|H']; [congruence|contradiction].
      * intros H H'. apply H. now right.
Qed.


(** Assigning to an absent key appends the binding. *)
Lemma dict_set_fresh k v d : dict_get k d = None -> dict_set k v d = d ++ [(k, v)].
Proof.
  induction d as [|[k' v'] d IH]; simpl; [reflexivity|].
  destruct (String.eqb k k'); [discriminate|].
  intros H. now rewrite IH.
Qed.

Lemma dict_keys_set k v d :
  dict_keys (dict_set k v d) =
  if dict_mem k d then dict_keys d else dict_keys d ++ [k].
Proof.
  unfold dict_mem. induction d as [|[k' v'] d IH]; simpl; [reflexivity|].
  destruct (String.eqb k k') eqn:E; simpl.
  - apply String.eqb_eq in E. now subst.
  - rewrite IH. now destruct (dict_get k d).
Qed.

Lemma dict_wf_set k v d : dict_wf d -> dict_wf (dict_set k v d).
Proof.
  unfold dict_wf. intros Hwf. rewrite dict_keys_set.
  destruct (dict_mem k d) eqn:E; [assumption|].
  apply dict_mem_false, dict_get_None_keys in E.
  apply NoDup_app; [assumption|repeat constructor; intros []|].
  intros x Hx [<-|[]]. contradiction.
Qed.

Lemma dict_wf_nil : dict_wf (@nil (string * V)).
Proof. constructor. Qed.

(** What a binding of [dict_set k v d] is. *)
Lemma dict_get_set_inv k k' v v' d :
  dict_get k' (dict_set k v d) = Some v' ->
  (k' = k /\ v' = v) \/ (k' <> k /\ dict_get k' d = Some v').
Proof.
  destruct (string_dec k k') as [<-|Hne].
  - rewrite dict_get_set_eq. intros [= <-]. now left.
  - rewrite dict_get_set_neq by assumption. intros H. right. split; congruence.
Qed.
End DictFacts.

(** ** Membership in a list of values *)

Lemma is_str_true x v : is_str x v = true <-> v = PStr x.
Proof.
  destruct v; simpl; try (split; [discriminate|intros [=]]).
  rewrite String.eqb_eq. split; [now intros ->|now intros [= ->]].
Qed.

Lemma existsb_is_str x l : existsb (is_str x) l = true <-> In (PStr x) l.
Proof.
  rewrite existsb_exists. split.
  - intros [v [Hin Hv]]. apply is_str_true in Hv. now subst.
  - intros Hin. exists (PStr x). split; [assumption|now apply is_str_true].
Qed.

Lemma existsb_is_str_snoc x y l :
  existsb (is_str x) (l ++ [PStr y]) = existsb (is_str x) l || String.eqb x y.
Proof. rewrite existsb_app. simpl. now rewrite orb_false_r. Qed.

Lemma occurrences_absent x l : existsb (is_str x) l = false -> occurrences x l = 0.
Proof.
  unfold occurrences. induction l as [|v l IH]; simpl; [reflexivity|].
  destruct (is_str x v); simpl; [discriminate|exact IH].
Qed.

Lemma occurrences_snoc x l :
  occurrences x (l ++ [PStr x]) = S (occurrences x l).
Proof.
  unfold occurrences. rewrite filter_app, List.length_app. simpl.
  rewrite String.eqb_refl. simpl. lia.
Qed.

Lemma enrolled_list c s l :
  Student.courses s = PList l -> (enrolled c s <-> In (PStr c) l).
Proof.
  unfold enrolled. intros ->. simpl. rewrite <- existsb_is_str.
  split; [now intros [= ->]|now intros ->].
Qed.

Import StudentManagementSystem.

Ltac run :=
  unfold enroll_student_in_course, add_grade_for_student;
  unfold add_student, add_course, get_student, get_course,
    on_student, on_course;
  unfold Student.enroll_course, Student.add_grade, Course.add_student;
  unfold bind, get, put, ret, raise, lift; simpl.

Lemma set_students_same (R : t) : set_students R (students R) = R.
Proof. now destruct R. Qed.

Lemma set_courses_same (R : t) : set_courses R (courses R) = R.
Proof. now destruct R. Qed.

(** One step of each operation. *)

Lemma bind_Ok {S A B : Type} (m : M S A) (f : A -> M S B) s a s' :
  m s = (Ok a, s') -> bind m f s = f a s'.
Proof. unfold bind. now intros ->. Qed.

Lemma bind_Raise {S A B : Type} (m : M S A) (f : A -> M S B) s e s' :
  m s = (Raise e, s') -> bind m f s = (Raise e, s').
Proof. unfold bind. now intros ->. Qed.

Lemma get_student_Some R s st :
  dict_get s (students R) = Some st -> get_student s R = (Ok st, R).
Proof. intros H. run. now rewrite H. Qed.

Lemma get_course_Some R c co :
  dict_get c (courses R) = Some co -> get_course c R = (Ok co, R).
Proof. intros H. run. now rewrite H. Qed.

Lemma on_student_Some {A : Type} R s st (m : M Student.t A) r st' :
  dict_get s (students R) = Some st -> m st = (r, st') ->
  on_student s m R = (r, set_students R (dict_set s st' (students R))).
Proof. intros H Hm. unfold on_student. now rewrite H, Hm. Qed.

Lemma on_course_Some {A : Type} R c co (m : M Course.t A) r co' :
  dict_get c (courses R) = Some co -> m co = (r, co') ->
  on_course c m R = (r, set_courses R (dict_set c co' (courses R))).
Proof. intros H Hm. unfold on_course. now rewrite H, Hm. Qed.

Lemma enroll_course_new c st l :
  Student.courses st = PList l -> existsb (is_str c) l = false ->
  Student.enroll_course c st =
    (Ok tt, Student.set_courses st (PList (l ++ [PStr c]))).
Proof. intros Hl Hn. run. rewrite Hl. simpl. now rewrite Hn. Qed.

Lemma enroll_course_dup c st :
  py_in c (Student.courses st) = Ok true ->
  Student.enroll_course c st =
    (Raise (ValueError (StudentAlreadyEnrolled (Student.student_id st) c)), st).
Proof. intros H. run. now rewrite H. Qed.

Lemma course_add_student_new s co m :
  Course.students co = PList m -> existsb (is_str s) m = false ->
  Course.add_student s co =
    (Ok tt, Course.set_students co (PList (m ++ [PStr s]))).
Proof. intros Hm Hn. run. rewrite Hm. simpl. now rewrite Hn. Qed.

(** ** Adding and looking up *)

(** C1. For an id that is not yet a key of the student collection,
    [add_student name age address id] succeeds and [get_student id] then
    returns a Student whose name, age, address and student_id are the
    arguments and whose courses list and grades mapping are empty. *)
Theorem add_student_then_get_student
    (R : t) (name : string) (age : Z) (address id : string) :
  dict_mem id (students R) = false ->
  exists R',
    add_student name age address id R = (Ok tt, R') /\
    get_student id R' =
      (Ok (Student.mk (PStr name) (PInt age) (PStr address) (PStr id)
             (PDict []) (PList [])), R').
Proof.
  intros Hfresh. run. rewrite Hfresh. eexists. split; [reflexivity|].
  simpl. now rewrite dict_get_set_eq.
Qed.

Lemma add_student_then_get_student_witness :
  dict_mem "S1" (students init) = false /\
  exists R',
    add_student "Alice" 20 "X St" "S1" init = (Ok tt, R') /\
    get_student "S1" R' =
      (Ok (Student.mk (PStr "Alice") (PInt 20) (PStr "X St") (PStr "S1")
             (PDict []) (PList [])), R').
Proof.
  split; [reflexivity|].
  apply (add_student_then_get_student init "Alice" 20 "X St" "S1").
  reflexivity.
Defined.

(** C2. [add_student] with an id that is already a key, and [add_course]
    with a code that is already a key, raise the "already exists"
    ValueError and leave the registry, hence the stored entity and both
    collections, exactly as it was. *)
Theorem duplicate_key_rejected (R : t) :
  (forall (name : string) (age : Z) (address id : string),
      dict_mem id (students R) = true ->
      add_student name age address id R =
        (Raise (ValueError (StudentIdExists id)), R)) /\
  (forall course_name course_code instructor : string,
      dict_mem course_code (courses R) = true ->
      add_course course_name course_code instructor R =
        (Raise (ValueError (CourseCodeExists course_code)), R)).
Proof.
  split; intros; run; now rewrite H.
Qed.

Lemma duplicate_key_rejected_witness :
  add_student "Bob" 21 "Y St" "S1" registry_alice_algo =
    (Raise (ValueError (StudentIdExists "S1")), registry_alice_algo) /\
  add_course "Logic" "C1" "Dr. C" registry_alice_algo =
    (Raise (ValueError (CourseCodeExists "C1")), registry_alice_algo).
Proof.
  split.
  - apply (proj1 (duplicate_key_rejected registry_alice_algo)). reflexivity.
  - apply (proj2 (duplicate_key_rejected registry_alice_algo)). reflexivity.
Defined.

(** ** Enrollment *)

(** C3. Let student [s] and course [c] be in the registry, [s]'s course
    list not containing [c] and [c]'s student list not containing [s].
    Then [enroll_student_in_course s c] succeeds; afterwards the course
    list of the student stored under [s] is the old one with [c] appended
    and contains [c] exactly once, the student list of the course stored
    under [c] is the old one with [s] appended and contains [s] exactly
    once; and a second [enroll_student_in_course s c] raises the
    "already enrolled" ValueError. *)
Theorem enroll_once_then_duplicate
    (R : t) (s c : string) (st : Student.t) (co : Course.t)
    (l m : list pyval) :
  dict_get s (students R) = Some st ->
  dict_get c (courses R) = Some co ->
  Student.courses st = PList l ->
  Course.students co = PList m ->
  existsb (is_str c) l = false ->
  existsb (is_str s) m = false ->
  exists R' st' co',
    enroll_student_in_course s c R = (Ok tt, R') /\
    dict_get s (students R') = Some st' /\
    dict_get c (courses R') = Some co' /\
    Student.courses st' = PList (l ++ [PStr c]) /\
    Course.students co' = PList (m ++ [PStr s]) /\
    occurrences c (l ++ [PStr c]) = 1 /\
    occurrences s (m ++ [PStr s]) = 1 /\
    enroll_student_in_course s c R' =
      (Raise (ValueError (StudentAlreadyEnrolled (Student.student_id st) c)), R').
Proof.
  intros Hs Hc Hl Hm Hnl Hnm.
  set (st' := Student.set_courses st (PList (l ++ [PStr c]))).
  set (co' := Course.set_students co (PList (m ++ [PStr s]))).
  set (R1 := set_students R (dict_set s st' (students R))).
  set (R2 := set_courses R1 (dict_set c co' (courses R1))).
  assert (Hs2 : dict_get s (students R2) = Some st')
    by apply dict_get_set_eq.
  assert (Hc2 : dict_get c (courses R2) = Some co')
    by apply dict_get_set_eq.
  exists R2, st', co'. repeat split; try assumption.
  - unfold enroll_student_in_course.
    rewrite (bind_Ok _ _ _ _ _ (get_student_Some R s st Hs)).
    rewrite (bind_Ok _ _ _ _ _ (get_course_Some R c co Hc)).
    rewrite (bind_Ok _ _ R tt R1).
    + apply on_course_Some with (co := co); [exact Hc|].
      now apply course_add_student_new.
    + apply on_student_Some with (st := st); [exact Hs|].
      now apply enroll_course_new.
  - rewrite occurrences_snoc, occurrences_absent; auto.
  - rewrite occurrences_snoc, occurrences_absent; auto.
  - unfold enroll_student_in_course.
    rewrite (bind_Ok _ _ _ _ _ (get_student_Some R2 s st' Hs2)).
    rewrite (bind_Ok _ _ _ _ _ (get_course_Some R2 c co' Hc2)).
    apply bind_Raise.
    assert (Hin : py_in c (Student.courses st') = Ok true).
    { simpl. now rewrite existsb_is_str_snoc, String.eqb_refl, orb_true_r. }
    rewrite (on_student_Some R2 s st' _ _ st' Hs2 (enroll_course_dup c st' Hin)).
    rewrite (dict_set_same _ _ _ Hs2). now rewrite set_students_same.
Qed.

Lemma enroll_once_then_duplicate_witness :
  exists R' st' co',
    enroll_student_in_course "S1" "C1" registry_alice_algo = (Ok tt, R') /\
    dict_get "S1" (students R') = Some st' /\
    dict_get "C1" (courses R') = Some co' /\
    Student.courses st' = PList [PStr "C1"] /\
    Course.students co' = PList [PStr "S1"] /\
    occurrences "C1" [PStr "C1"] = 1 /\
    occurrences "S1" [PStr "S1"] = 1 /\
    enroll_student_in_course "S1" "C1" R' =
      (Raise (ValueError (StudentAlreadyEnrolled (PStr "S1") "C1")), R').
Proof.
  apply (enroll_once_then_duplicate registry_alice_algo "S1" "C1"
           alice algo [] []); reflexivity.
Defined.

(** ** Grades *)

(** C4. For a student [s] of the registry, [add_grade_for_student s c g]
    raises the "not enrolled" ValueError, changing nothing, when [c] is not
    in [s]'s course list; when [c] is in the list it succeeds and
    [s]'s grades map [c] to [g] afterwards, whatever grade was recorded for
    [c] before, the other grades being kept. *)
Theorem add_grade_for_student_spec
    (R : t) (s c g : string) (st : Student.t) :
  dict_get s (students R) = Some st ->
  (py_in c (Student.courses st) = Ok false ->
   add_grade_for_student s c g R = (Raise (ValueError (NotEnrolledIn s c)), R))
  /\
  (forall gd : dict pyval,
      py_in c (Student.courses st) = Ok true ->
      Student.grades st = PDict gd ->
      exists gd',
        add_grade_for_student s c g R =
          (Ok tt,
           set_students R
             (dict_set s (Student.set_grades st (PDict gd')) (students R))) /\
        dict_get c gd' = Some (PStr g) /\
        forall c', c' <> c -> dict_get c' gd' = dict_get c' gd).
Proof.
  intros Hs. split.
  - intros Hin. unfold add_grade_for_student.
    rewrite (bind_Ok _ _ _ _ _ (get_student_Some R s st Hs)).
    unfold bind, lift, raise. now rewrite Hin.
  - intros gd Hin Hg. exists (dict_set c (PStr g) gd). repeat split.
    + unfold add_grade_for_student.
      rewrite (bind_Ok _ _ _ _ _ (get_student_Some R s st Hs)).
      unfold bind at 1. unfold lift at 1. rewrite Hin. simpl.
      apply on_student_Some with (st := st); [exact Hs|].
      run. rewrite Hin, Hg. reflexivity.
    + apply dict_get_set_eq.
    + intros c' Hne. apply dict_get_set_neq. congruence.
Qed.

Lemma add_grade_for_student_spec_witness :
  add_grade_for_student "S1" "C1" "A" registry_alice_algo =
    (Raise (ValueError (NotEnrolledIn "S1" "C1")), registry_alice_algo) /\
  exists gd',
    add_grade_for_student "S1" "C1" "A" registry_graded =
      (Ok tt,
       set_students registry_graded
         (dict_set "S1"
            (Student.mk (PStr "Alice") (PInt 20) (PStr "X St") (PStr "S1")
               (PDict gd') (PList [PStr "C1"]))
            (students registry_graded))) /\
    dict_get "C1" gd' = Some (PStr "A") /\
    forall c', c' <> "C1" -> dict_get c' gd' = dict_get c' [("C1", PStr "B")].
Proof.
  split.
  - apply (proj1 (add_grade_for_student_spec registry_alice_algo
                    "S1" "C1" "A" alice eq_refl)).
    reflexivity.
  - apply (proj2 (add_grade_for_student_spec registry_graded "S1" "C1" "A"
                    (Student.mk (PStr "Alice") (PInt 20) (PStr "X St")
                       (PStr "S1") (PDict [("C1", PStr "B")])
                       (PList [PStr "C1"]))
                    eq_refl) [("C1", PStr "B")]);
      reflexivity.
Defined.

(** ** Dictionary forms *)

(** C9. [from_dict(to_dict(x))] rebuilds an instance with the field values
    of [x]: name, age, address, student_id, courses and grades of a
    Student; course_name, course_code, instructor and students of a
    Course.  (In Python the rebuilt instance holds the very list and dict
    of [x]; the statement compares values.) *)
Theorem from_dict_to_dict :
  (forall x : Student.t, Student.from_dict (PDict (Student.to_dict x)) = Ok x) /\
  (forall x : Course.t, Course.from_dict (PDict (Course.to_dict x)) = Ok x).
Proof.
  split; intros []; reflexivity.
Qed.

(** ** The operations as sequences of assignments *)

Lemma enroll_course_cases c st :
  (exists e, Student.enroll_course c st = (Raise e, st)) \/
  (exists l, Student.courses st = PList l /\
             Student.enroll_course c st =
               (Ok tt, Student.set_courses st (PList (l ++ [PStr c])))).
Proof.
  run. destruct (Student.courses st) eqn:E; simpl; eauto.
  - destruct (is_substring c s); simpl; eauto.
  - destruct (existsb (is_str c) l); simpl; eauto.
  - destruct (dict_mem c d); simpl; eauto.
Qed.

Lemma course_add_student_cases s co :
  (exists e, Course.add_student s co = (Raise e, co)) \/
  (exists m, Course.students co = PList m /\
             Course.add_student s co =
               (Ok tt, Course.set_students co (PList (m ++ [PStr s])))).
Proof.
  run. destruct (Course.students co) eqn:E; simpl; eauto.
  - destruct (is_substring s s0); simpl; eauto.
  - destruct (existsb (is_str s) l); simpl; eauto.
  - destruct (dict_mem s d); simpl; eauto.
Qed.

Lemma add_grade_cases c grade st :
  (exists e, Student.add_grade c grade st = (Raise e, st)) \/
  (exists g, Student.grades st = PDict g /\ enrolled c st /\
             Student.add_grade c grade st =
               (Ok tt, Student.set_grades st (PDict (dict_set c (PStr grade) g)))).
Proof.
  unfold enrolled. run.
  destruct (py_in c (Student.courses st)) as [[|]|e]; simpl; eauto.
  destruct (Student.grades st) eqn:E; simpl; eauto.
Qed.

Lemma enrolled_snoc c st l :
  Student.courses st = PList l ->
  enrolled c (Student.set_courses st (PList (l ++ [PStr c]))).
Proof.
  intros _. unfold enrolled. simpl.
  now rewrite existsb_is_str_snoc, String.eqb_refl, orb_true_r.
Qed.

Lemma enrolled_mono c c' st l :
  Student.courses st = PList l -> enrolled c st ->
  enrolled c (Student.set_courses st (PList (l ++ [PStr c']))).
Proof.
  unfold enrolled. intros ->. simpl. intros [= H].
  now rewrite existsb_is_str_snoc, H.
Qed.

Lemma on_student_unchanged {A : Type} R s st (m : M Student.t A) r :
  dict_get s (students R) = Some st -> m st = (r, st) ->
  on_student s m R = (r, R).
Proof.
  intros Hs Hm. rewrite (on_student_Some R s st m r st Hs Hm).
  now rewrite (dict_set_same _ _ _ Hs), set_students_same.
Qed.

Lemma on_course_unchanged {A : Type} R c co (m : M Course.t A) r :
  dict_get c (courses R) = Some co -> m co = (r, co) ->
  on_course c m R = (r, R).
Proof.
  intros Hc Hm. rewrite (on_course_Some R c co m r co Hc Hm).
  now rewrite (dict_set_same _ _ _ Hc), set_courses_same.
Qed.

Lemma mutations_one R R' : mutation R R' -> mutations R R'.
Proof. intros H. eapply mutations_step; [apply mutations_refl|exact H]. Qed.

Lemma add_student_mutations name age address id R :
  mutations R (snd (add_student name age address id R)).
Proof.
  run. destruct (dict_mem id (students R)) eqn:E; simpl.
  - apply mutations_refl.
  - apply mutations_one. constructor. now apply dict_mem_false.
Qed.

Lemma add_course_mutations name code instructor R :
  mutations R (snd (add_course name code instructor R)).
Proof.
  run. destruct (dict_mem code (courses R)) eqn:E; simpl.
  - apply mutations_refl.
  - apply mutations_one. constructor. now apply dict_mem_false.
Qed.

Lemma enroll_mutations s c R :
  mutations R (snd (enroll_student_in_course s c R)).
Proof.
  unfold enroll_student_in_course.
  destruct (dict_get s (students R)) as [st|] eqn:Hs.
  2:{ unfold bind at 1. unfold get_student, bind, get, raise. rewrite Hs.
      apply mutations_refl. }
  rewrite (bind_Ok _ _ _ _ _ (get_student_Some R s st Hs)).
  destruct (dict_get c (courses R)) as [co|] eqn:Hc.
  2:{ unfold bind at 1. unfold get_course, bind, get, raise. rewrite Hc.
      apply mutations_refl. }
  rewrite (bind_Ok _ _ _ _ _ (get_course_Some R c co Hc)).
  destruct (enroll_course_cases c st) as [[e He]|[l [Hl He]]].
  { rewrite (bind_Raise _ _ _ _ _ (on_student_unchanged R s st _ _ Hs He)).
    apply mutations_refl. }
  rewrite (bind_Ok _ _ _ _ _ (on_student_Some R s st _ _ _ Hs He)).
  set (st' := Student.set_courses st (PList (l ++ [PStr c]))).
  set (R1 := set_students R (dict_set s st' (students R))).
  assert (H1 : mutation R R1) by (now apply mut_student_enrolls).
  assert (Hc1 : dict_get c (courses R1) = Some co) by exact Hc.
  destruct (course_add_student_cases s co) as [[e Hco]|[m [Hm Hco]]].
  { rewrite (on_course_unchanged R1 c co _ _ Hc1 Hco).
    now apply mutations_one. }
  rewrite (on_course_Some R1 c co _ _ _ Hc1 Hco). cbn [snd].
  apply mutations_step with (R1 := R1); [apply mutations_one, H1|].
  apply mut_course_lists with (st := st'); try assumption.
  - apply dict_get_set_eq.
  - now apply enrolled_snoc.
Qed.

Lemma add_grade_mutations s c g R :
  mutations R (snd (add_grade_for_student s c g R)).
Proof.
  unfold add_grade_for_student.
  destruct (dict_get s (students R)) as [st|] eqn:Hs.
  2:{ unfold bind at 1. unfold get_student, bind, get, raise. rewrite Hs.
      apply mutations_refl. }
  rewrite (bind_Ok _ _ _ _ _ (get_student_Some R s st Hs)).
  unfold bind at 1. unfold lift at 1.
  destruct (py_in c (Student.courses st)) as [[|]|e]; simpl;
    try apply mutations_refl.
  destruct (add_grade_cases c g st) as [[e He]|[gd [Hg [Hen He]]]].
  - rewrite (on_student_unchanged R s st _ _ Hs He). apply mutations_refl.
  - rewrite (on_student_Some R s st _ _ _ Hs He). cbn [snd].
    apply mutations_one. now apply mut_grade.
Qed.

Lemma run_op_mutations o R : mutations R (snd (run_op o R)).
Proof.
  destruct o; simpl.
  - apply add_student_mutations.
  - apply add_course_mutations.
  - apply enroll_mutations.
  - apply add_grade_mutations.
Qed.

(** An invariant of the assignments is an invariant of the registry. *)
Lemma reachable_ind_mutation (P : t -> Prop) :
  P init ->
  (forall R R', P R -> mutation R R' -> P R') ->
  forall R, reachable R -> P R.
Proof.
  intros Hinit Hstep R Hreach. induction Hreach as [|R o _ IH]; [exact Hinit|].
  induction (run_op_mutations o R) as [|R1 R2 _ IH1 Hm]; [exact IH|].
  exact (Hstep _ _ IH1 Hm).
Qed.

(** ** Invariants of the four operations *)

Lemma keys_match_mutation R R' : keys_match R -> mutation R R' -> keys_match R'.
Proof.
  intros [HS HC] Hm.
  destruct Hm as [name age address id Hid|name code instr Hcode
                 |sid st l cc Hs Hl|cc co m sid st Hc Hm Hs Hen
                 |sid st g cc grade Hs Hg Hen];
    split; simpl; intros k x Hk; try (now apply HS); try (now apply HC);
    apply dict_get_set_inv in Hk as [[-> ->]|[_ Hk]];
    try (now apply HS); try (now apply HC); try reflexivity; simpl.
  - now apply HS.
  - now apply HC.
  - now apply HS.
Qed.

(** C10. In every registry built from the empty one by calls of
    add_student, add_course, enroll_student_in_course and
    add_grade_for_student, the student stored under a key [k] has
    student_id [k] and the course stored under a key [k] has course_code
    [k]. *)
Theorem reachable_keys_match (R : t) :
  reachable R ->
  (forall k s, dict_get k (students R) = Some s -> Student.student_id s = PStr k) /\
  (forall k c, dict_get k (courses R) = Some c -> Course.course_code c = PStr k).
Proof.
  revert R. apply (reachable_ind_mutation keys_match).
  - split; intros k x; discriminate.
  - exact keys_match_mutation.
Qed.

Lemma reachable_run_ops l R : reachable R -> reachable (run_ops l R).
Proof.
  revert R. induction l as [|o l IH]; intros R HR; simpl; [exact HR|].
  apply IH. now constructor.
Qed.

Lemma reachable_registry_graded : reachable registry_graded.
Proof. apply reachable_run_ops. constructor. Qed.

Lemma reachable_keys_match_witness :
  reachable registry_graded /\
  (forall k s, dict_get k (students registry_graded) = Some s ->
               Student.student_id s = PStr k) /\
  (forall k c, dict_get k (courses registry_graded) = Some c ->
               Course.course_code c = PStr k).
Proof.
  split; [exact reachable_registry_graded|].
  apply (reachable_keys_match registry_graded).
  exact reachable_registry_graded.
Defined.

Lemma grades_within_courses_mutation R R' :
  grades_within_courses R -> mutation R R' -> grades_within_courses R'.
Proof.
  unfold grades_within_courses. intros H Hm.
  destruct Hm as [name age address id Hid|name code instr Hcode
                 |sid st l cc Hs Hl|cc co m sid st Hc Hm Hs Hen
                 |sid st g cc grade Hs Hg Hen];
    simpl; intros k x Hk c Hc'; try (now apply (H k x Hk c Hc')).
  - apply dict_get_set_inv in Hk as [[-> ->]|[_ Hk]];
      [discriminate Hc'|now apply (H k x Hk)].
  - apply dict_get_set_inv in Hk as [[-> ->]|[_ Hk]];
      [|now apply (H k x Hk)].
    apply enrolled_mono; [assumption|]. now apply (H sid st Hs).
  - apply dict_get_set_inv in Hk as [[-> ->]|[_ Hk]];
      [|now apply (H k x Hk)].
    unfold has_grade in Hc'. simpl in Hc'.
    destruct (string_dec cc c) as [<-|Hne]; [exact Hen|].
    apply (H sid st Hs). unfold has_grade. rewrite Hg.
    unfold dict_mem in *. now rewrite dict_get_set_neq in Hc'.
Qed.

Lemma mutations_preserve (P : t -> Prop) :
  (forall R R', P R -> mutation R R' -> P R') ->
  forall R R', P R -> mutations R R' -> P R'.
Proof.
  intros Hstep R R' HR Hm. induction Hm as [|R1 R2 _ IH Hm]; [exact HR|].
  exact (Hstep _ _ IH Hm).
Qed.

(** ** Loops *)

Section ForEach.
Context {S A : Type} (Rel : S -> S -> Prop) (body : A -> M S unit).
Hypothesis Rel_refl : forall s, Rel s s.
Hypothesis Rel_trans : forall a b c, Rel a b -> Rel b c -> Rel a c.
Hypothesis body_Rel : forall x s, Rel s (snd (body x s)).

Lemma for_each_Rel l s : Rel s (snd (for_each l body s)).
Proof.
  revert s. induction l as [|x l IH]; intros s; simpl; [apply Rel_refl|].
  unfold bind. specialize (body_Rel x s).
  destruct (body x s) as [[[]|e] s1]; simpl in *; [|assumption].
  eapply Rel_trans; [eassumption|apply IH].
Qed.

(** In a loop that ran to its end, every iteration returned normally,
    from a state the loop had reached to a state the loop went on from. *)
Lemma for_each_Ok l s s' :
  for_each l body s = (Ok tt, s') ->
  forall x, In x l ->
  exists s1 s2, Rel s s1 /\ body x s1 = (Ok tt, s2) /\ Rel s2 s'.
Proof.
  revert s. induction l as [|y l IH]; intros s Hrun x []; simpl in Hrun.
  - subst y. unfold bind in Hrun.
    destruct (body x s) as [[[]|e] s1] eqn:E; [|discriminate].
    exists s, s1. repeat split; auto.
    replace s' with (snd (for_each l body s1)) by now rewrite Hrun.
    apply for_each_Rel.
  - unfold bind in Hrun. pose proof (body_Rel y s) as Hy.
    destruct (body y s) as [[[]|e] s1] eqn:E; [|discriminate].
    destruct (IH s1 Hrun x H) as (s2 & s3 & H12 & Hb & H3).
    exists s2, s3. repeat split; auto. eapply Rel_trans; eassumption.
Qed.
End ForEach.

Lemma for_each_noop {S A : Type} (body : A -> M S unit) l s :
  (forall x, In x l -> body x s = (Ok tt, s)) ->
  for_each l body s = (Ok tt, s).
Proof.
  induction l as [|x l IH]; intros H; simpl; [reflexivity|].
  unfold bind. rewrite (H x (or_introl eq_refl)).
  apply IH. intros y Hy. apply H. now right.
Qed.

(** ** The consistency loop of load_data *)

Lemma extends_trans a b c : extends a b -> extends b c -> extends a c.
Proof.
  intros [|l l' Hl] Hbc; [exact Hbc|].
  inversion Hbc as [|l0 l0' Hl0]; [now constructor|].
  simpl in Hl0. injection Hl0 as <-.
  replace (Student.set_courses _ _)
    with (Student.set_courses a (PList (l ++ (l' ++ l0')))).
  - now constructor.
  - unfold Student.set_courses. simpl. now rewrite app_assoc.
Qed.

Lemma extends_enrolled c s s' : extends s s' -> enrolled c s -> enrolled c s'.
Proof.
  intros [|l l' Hl]; [auto|]. unfold enrolled. rewrite Hl. simpl.
  intros [= H]. now rewrite existsb_app, H.
Qed.

Lemma extends_has_grade c s s' : extends s s' -> has_grade c s' -> has_grade c s.
Proof. intros [|l l' Hl]; auto. Qed.

Lemma grows_refl S : grows S S.
Proof. intros k. destruct (dict_get k S); constructor. Qed.

Lemma grows_trans S1 S2 S3 : grows S1 S2 -> grows S2 S3 -> grows S1 S3.
Proof.
  intros H12 H23 k. specialize (H12 k). specialize (H23 k).
  destruct (dict_get k S1), (dict_get k S2), (dict_get k S3);
    try contradiction; auto.
  eapply extends_trans; eassumption.
Qed.

Lemma grows_set S k s s' :
  dict_get k S = Some s -> extends s s' -> grows S (dict_set k s' S).
Proof.
  intros Hk He k'. destruct (string_dec k k') as [<-|Hne].
  - now rewrite Hk, dict_get_set_eq.
  - rewrite dict_get_set_neq by assumption.
    destruct (dict_get k' S); constructor.
Qed.

Lemma repairs_refl R : repairs R R.
Proof. split; [reflexivity|apply grows_refl]. Qed.

Lemma repairs_trans R1 R2 R3 : repairs R1 R2 -> repairs R2 R3 -> repairs R1 R3.
Proof.
  intros [Hc12 Hs12] [Hc23 Hs23]. split; [congruence|].
  eapply grows_trans; eassumption.
Qed.

Lemma link_ok_grows S S' cc sid : grows S S' -> link_ok S cc sid -> link_ok S' cc sid.
Proof.
  unfold link_ok. intros Hg. destruct (py_hash_key sid) as [[k|]|]; auto.
  specialize (Hg k). destruct (dict_get k S), (dict_get k S');
    try contradiction; auto.
  now apply extends_enrolled.
Qed.

Lemma repair_link_repairs cc sid R : repairs R (snd (repair_link cc sid R)).
Proof.
  unfold repair_link, bind, lift, get, ret, put.
  destruct (py_hash_key sid) as [[k|]|e]; simpl; try apply repairs_refl.
  destruct (dict_get k (students R)) as [s|] eqn:Hk; simpl;
    try apply repairs_refl.
  destruct (py_in cc (Student.courses s)) as [[|]|e]; simpl;
    try apply repairs_refl.
  destruct (Student.courses s) eqn:Hc; simpl; try apply repairs_refl.
  split; [reflexivity|]. simpl.
  apply grows_set with (s := s); [assumption|]. now constructor.
Qed.

Lemma repair_link_Ok cc sid R R' :
  repair_link cc sid R = (Ok tt, R') -> link_ok (students R') cc sid.
Proof.
  unfold repair_link, link_ok, bind, lift, get, ret, put.
  destruct (py_hash_key sid) as [[k|]|e]; simpl; try discriminate; auto.
  destruct (dict_get k (students R)) as [s|] eqn:Hk; simpl.
  2:{ intros [= <-]. now rewrite Hk. }
  destruct (py_in cc (Student.courses s)) as [[|]|e] eqn:Hin; simpl;
    try discriminate.
  - intros [= <-]. now rewrite Hk.
  - destruct (Student.courses s) eqn:Hc; simpl; try discriminate.
    intros [= <-]. simpl. rewrite dict_get_set_eq.
    now apply enrolled_snoc with (st := s).
Qed.

Lemma repair_link_noop cc sid R :
  link_ok (students R) cc sid -> repair_link cc sid R = (Ok tt, R).
Proof.
  unfold repair_link, link_ok, enrolled, bind, lift, get, ret, put.
  destruct (py_hash_key sid) as [[k|]|e]; simpl; try contradiction; auto.
  destruct (dict_get k (students R)) as [s|]; simpl; auto.
  now intros ->.
Qed.

Lemma repair_course_repairs item R : repairs R (snd (repair_course item R)).
Proof.
  destruct item as [cc c]. unfold repair_course, bind, lift.
  destruct (py_iter (Course.students c)) as [sids|e]; [|apply repairs_refl].
  apply for_each_Rel.
  - exact repairs_refl.
  - exact repairs_trans.
  - apply repair_link_repairs.
Qed.

Lemma repair_course_Ok cc c R R' :
  repair_course (cc, c) R = (Ok tt, R') ->
  exists sids,
    py_iter (Course.students c) = Ok sids /\
    forall sid, In sid sids -> link_ok (students R') cc sid.
Proof.
  unfold repair_course, bind, lift.
  destruct (py_iter (Course.students c)) as [sids|e]; [|discriminate].
  intros Hrun. exists sids. split; [reflexivity|]. intros sid Hsid.
  destruct (for_each_Ok repairs (repair_link cc) repairs_refl repairs_trans
              (repair_link_repairs cc) sids R R' Hrun sid Hsid)
    as (R1 & R2 & _ & Hb & [_ Hg]).
  eapply link_ok_grows; [exact Hg|]. now apply repair_link_Ok with (R := R1).
Qed.

Lemma repair_loop_repairs cs R : repairs R (snd (for_each cs repair_course R)).
Proof.
  apply for_each_Rel.
  - exact repairs_refl.
  - exact repairs_trans.
  - apply repair_course_repairs.
Qed.

(** After the loop has run to its end over the courses of the registry,
    every link from a course to a student is in place. *)
Lemma repair_loop_Ok R R' :
  for_each (courses R) repair_course R = (Ok tt, R') -> links_ok R'.
Proof.
  intros Hrun cc c Hin.
  assert (Hrep : repairs R R').
  { replace R' with (snd (for_each (courses R) repair_course R))
      by now rewrite Hrun.
    apply repair_loop_repairs. }
  destruct Hrep as [Hcs _]. rewrite Hcs in Hin.
  destruct (for_each_Ok repairs repair_course repairs_refl repairs_trans
              repair_course_repairs (courses R) R R' Hrun (cc, c) Hin)
    as (R1 & R2 & _ & Hb & [_ Hg]).
  destruct (repair_course_Ok cc c R1 R2 Hb) as (sids & Hit & Hl).
  exists sids. split; [assumption|]. intros sid Hsid.
  eapply link_ok_grows; [exact Hg|]. now apply Hl.
Qed.

(** Where every link is in place the loop changes nothing. *)
Lemma repair_loop_noop R :
  links_ok R -> for_each (courses R) repair_course R = (Ok tt, R).
Proof.
  intros H. apply for_each_noop. intros [cc c] Hin.
  destruct (H cc c Hin) as (sids & Hit & Hl).
  unfold repair_course, bind, lift. rewrite Hit.
  apply for_each_noop. intros sid Hsid. now apply repair_link_noop, Hl.
Qed.

(** ** Rebuilding the collections *)

(** Where [rebuild] can stop, and in which state. *)
Lemma rebuild_cases data R :
  (exists e, rebuild data R = (Raise e, R)) \/
  exists students sitems ss,
    py_get data "students" (PDict []) = Ok students /\
    py_items students = Ok sitems /\
    load_all Student.from_dict sitems [] = Ok ss /\
    ((exists e, rebuild data R = (Raise e, set_students R ss)) \/
     exists courses citems cs,
       py_get data "courses" (PDict []) = Ok courses /\
       py_items courses = Ok citems /\
       load_all Course.from_dict citems [] = Ok cs /\
       rebuild data R = for_each cs repair_course (mk ss cs)).
Proof.
  unfold rebuild, bind, lift, get, put.
  destruct (py_get data "students" (PDict [])) as [sv|e] eqn:E1; [|eauto].
  destruct (py_get data "courses" (PDict [])) as [cv|e] eqn:E2; [|eauto].
  destruct (py_items sv) as [sitems|e] eqn:E3; [|eauto].
  destruct (load_all Student.from_dict sitems []) as [ss|e] eqn:E4; [|eauto].
  right. exists sv, sitems, ss.
  do 3 (split; [first [assumption|reflexivity]|]).
  destruct (py_items cv) as [citems|e] eqn:E5; [|eauto].
  destruct (load_all Course.from_dict citems []) as [cs|e] eqn:E6; [|eauto].
  right. exists cv, citems, cs.
  now do 3 (split; [first [assumption|reflexivity]|]).
Qed.

(** Every binding of a rebuilt collection was in the accumulator or comes
    from an item of the document. *)
Lemma load_all_get {A : Type} (from_dict : pyval -> result A) items :
  forall acc out, load_all from_dict items acc = Ok out ->
  forall k a, dict_get k out = Some a ->
  dict_get k acc = Some a \/
  exists v, In (k, v) items /\ from_dict v = Ok a.
Proof.
  induction items as [|[k0 v0] items IH]; simpl; intros acc out Hrun k a Hk.
  - injection Hrun as <-. now left.
  - destruct (from_dict v0) as [a0|e] eqn:E; [|discriminate].
    destruct (IH _ _ Hrun k a Hk) as [Hacc|(v & Hin & Hv)].
    + apply dict_get_set_inv in Hacc as [[-> ->]|[_ Hacc]]; [|now left].
      right. exists v0. split; [now left|assumption].
    + right. exists v. split; [now right|assumption].
Qed.

(** On a collection with distinct keys, writing the dictionary forms and
    rebuilding from them gives the collection back. *)
Lemma dump_all_app {A : Type} (to_dict : A -> dict pyval) items :
  forall acc,
    NoDup (dict_keys acc ++ dict_keys items) ->
    fold_left (fun acc kv => dict_set (fst kv) (PDict (to_dict (snd kv))) acc)
      items acc =
    acc ++ map (fun kv => (fst kv, PDict (to_dict (snd kv)))) items.
Proof.
  induction items as [|[k a] items IH]; simpl; intros acc Hnd.
  - now rewrite app_nil_r.
  - assert (Hfresh : dict_get k acc = None).
    { apply dict_get_None_keys. intros Hin.
      apply NoDup_remove_2 in Hnd. apply Hnd, in_or_app. now left. }
    rewrite (dict_set_fresh _ _ _ Hfresh), IH.
    + now rewrite <- app_assoc.
    + unfold dict_keys in *. rewrite map_app, <- app_assoc. exact Hnd.
Qed.

Lemma dump_all_map {A : Type} (to_dict : A -> dict pyval) items :
  dict_wf items ->
  dump_all to_dict items =
    map (fun kv => (fst kv, PDict (to_dict (snd kv)))) items.
Proof. intros Hwf. unfold dump_all. now rewrite dump_all_app. Qed.

Lemma load_all_dumped {A : Type} (to_dict : A -> dict pyval)
    (from_dict : pyval -> result A) :
  (forall a, from_dict (PDict (to_dict a)) = Ok a) ->
  forall items acc,
    NoDup (dict_keys acc ++ dict_keys items) ->
    load_all from_dict
      (map (fun kv => (fst kv, PDict (to_dict (snd kv)))) items) acc =
    Ok (acc ++ items).
Proof.
  intros Hrt. induction items as [|[k a] items IH]; simpl; intros acc Hnd.
  - now rewrite app_nil_r.
  - rewrite Hrt.
    assert (Hfresh : dict_get k acc = None).
    { apply dict_get_None_keys. intros Hin.
      apply NoDup_remove_2 in Hnd. apply Hnd, in_or_app. now left. }
    rewrite (dict_set_fresh _ _ _ Hfresh), IH.
    + now rewrite <- app_assoc.
    + unfold dict_keys in *. rewrite map_app, <- app_assoc. exact Hnd.
Qed.

Lemma load_all_dump_all {A : Type} (to_dict : A -> dict pyval)
    (from_dict : pyval -> result A) (items : dict A) :
  (forall a, from_dict (PDict (to_dict a)) = Ok a) ->
  dict_wf items ->
  load_all from_dict (dump_all to_dict items) [] = Ok items.
Proof.
  intros Hrt Hwf. rewrite (dump_all_map _ _ Hwf).
  now rewrite (load_all_dumped to_dict from_dict Hrt items []).
Qed.

Lemma student_from_to_dict x : Student.from_dict (PDict (Student.to_dict x)) = Ok x.
Proof. now destruct x. Qed.

Lemma course_from_to_dict x : Course.from_dict (PDict (Course.to_dict x)) = Ok x.
Proof. now destruct x. Qed.

(** ** Consistency of enrollment under the four operations *)

Lemma enrollment_consistent_mutation R R' :
  enrollment_consistent R -> mutation R R' -> enrollment_consistent R'.
Proof.
  intros (HwS & HwC & Hl) Hm.
  destruct Hm as [name age address id Hid|name code instr Hcode
                 |sid st l cc0 Hs Hl0|cc0 co m sid st Hc Hm Hs Hen
                 |sid st g cc0 grade Hs Hg Hen];
    (split; [|split]); simpl; try assumption; try (now apply dict_wf_set).
  - intros cc c Hc. destruct (Hl cc c Hc) as (m & Hm & Hall).
    exists m. split; [assumption|]. intros v Hv.
    destruct (Hall v Hv) as (k & s & -> & Hk & Hen).
    exists k, s. repeat split; try assumption.
    rewrite dict_get_set_neq; [assumption|congruence].
  - intros cc c Hc.
    apply dict_get_set_inv in Hc as [[-> ->]|[_ Hc]]; [|now apply Hl].
    exists []. split; [reflexivity|intros v []].
  - intros cc c Hc. destruct (Hl cc c Hc) as (m & Hm & Hall).
    exists m. split; [assumption|]. intros v Hv.
    destruct (Hall v Hv) as (k & s & -> & Hk & Hen).
    destruct (string_dec sid k) as [<-|Hne].
    + eexists sid, _. repeat split; [apply dict_get_set_eq|].
      apply enrolled_mono; [assumption|]. congruence.
    + exists k, s. repeat split; try assumption.
      now rewrite dict_get_set_neq.
  - intros cc c Hc'.
    apply dict_get_set_inv in Hc' as [[-> ->]|[_ Hc']]; [|now apply Hl].
    destruct (Hl cc0 co Hc) as (m' & Hm' & Hall).
    assert (m' = m) by congruence. subst m'.
    exists (m ++ [PStr sid]). split; [reflexivity|]. intros v Hv.
    apply in_app_or in Hv as [Hv|[<-|[]]]; [now apply Hall|].
    now exists sid, st.
  - intros cc c Hc. destruct (Hl cc c Hc) as (m & Hm & Hall).
    exists m. split; [assumption|]. intros v Hv.
    destruct (Hall v Hv) as (k & s & -> & Hk & Hen').
    destruct (string_dec sid k) as [<-|Hne].
    + eexists sid, _. repeat split; [apply dict_get_set_eq|].
      assert (s = st) by congruence. subst s. exact Hen'.
    + exists k, s. repeat split; try assumption.
      now rewrite dict_get_set_neq.
Qed.



(** ** Loading *)

Lemma load_data_registry R f env data :
  read_json f env = Ok data ->
  fst (snd (load_data f (R, env))) = snd (rebuild data R).
Proof.
  intros H. unfold load_data. rewrite H.
  now destruct (rebuild data R) as [[[]|e] R'].
Qed.

Lemma load_data_Ok R f env R' env' :
  load_data f (R, env) = (Ok tt, (R', env')) ->
  exists data, read_json f env = Ok data /\ rebuild data R = (Ok tt, R').
Proof.
  unfold load_data. destruct (read_json f env) as [data|e]; [|discriminate].
  destruct (rebuild data R) as [[[]|e] R1] eqn:E; [|discriminate].
  intros [= <- _]. exists data. split; [reflexivity|exact E].
Qed.

(** C6, as the code has it.  [load_data] on a filename that does not exist
    raises FileNotFoundError, and on a file that does not parse raises the
    parse error; in both cases the registry (and the environment) is left
    exactly as it was.  Nothing is promised for a failure that comes after
    the file has been parsed. *)
Theorem load_data_unreadable (R : t) (f : string) (env : Env) :
  (dict_get f (files env) = None ->
   load_data f (R, env) = (Raise FileNotFoundError, (R, env))) /\
  (dict_get f (files env) = Some Malformed ->
   load_data f (R, env) = (Raise JSONDecodeError, (R, env))).
Proof.
  split; intros H; unfold load_data, read_json; now rewrite H.
Qed.

Lemma load_data_unreadable_witness :
  load_data "missing.json" (registry_graded, env_empty) =
    (Raise FileNotFoundError, (registry_graded, env_empty)) /\
  load_data "bad.json" (registry_graded, env_with "bad.json" Malformed) =
    (Raise JSONDecodeError, (registry_graded, env_with "bad.json" Malformed)).
Proof.
  split.
  - apply (proj1 (load_data_unreadable registry_graded "missing.json" env_empty)).
    reflexivity.
  - apply (proj2 (load_data_unreadable registry_graded "bad.json"
                    (env_with "bad.json" Malformed))).
    reflexivity.
Defined.

(** C6 fails as stated: a document whose course record lacks its fields
    makes [load_data] raise KeyError after the student collection has been
    replaced; Alice is gone, the course collection is the old one. *)
Lemma load_data_partial_overwrite :
  load_data "f.json" (registry_alice_algo, env_with "f.json" (Doc doc_course_without_fields)) =
    (Raise (KeyError (MissingKey "course_name")),
     (mk [] [("C1", algo)], env_with "f.json" (Doc doc_course_without_fields))) /\
  mk [] [("C1", algo)] <> registry_alice_algo.
Proof.
  split; [reflexivity|discriminate].
Qed.

(** ** Grades stay within courses *)

Lemma grades_within_courses_init : grades_within_courses init.
Proof. intros k s; discriminate. Qed.

Lemma grades_within_courses_repairs R R' :
  grades_within_courses R -> repairs R R' -> grades_within_courses R'.
Proof.
  intros H [_ Hg] k s' Hk c Hc. specialize (Hg k). rewrite Hk in Hg.
  destruct (dict_get k (students R)) as [s|] eqn:Hs; [|contradiction].
  apply (extends_enrolled c s s' Hg). apply (H k s Hs).
  now apply (extends_has_grade c s s').
Qed.

Lemma grades_within_courses_rebuild R data :
  grades_within_courses R -> document_grades_ok data ->
  grades_within_courses (snd (rebuild data R)).
Proof.
  intros HR Hdoc.
  destruct (rebuild_cases data R)
    as [[e ->]|(sv & sitems & ss & Hsv & Hit & Hss & Hrest)]; [exact HR|].
  assert (Hok : forall cs, grades_within_courses (mk ss cs)).
  { intros cs k s Hk. simpl in Hk.
    destruct (load_all_get _ _ _ _ Hss k s Hk) as [Hnil|(v & Hin & Hv)];
      [discriminate|].
    now apply (Hdoc sv sitems Hsv Hit k v Hin). }
  destruct Hrest as [[e ->]|(cv & citems & cs & _ & _ & _ & ->)].
  - exact (Hok (courses R)).
  - apply grades_within_courses_repairs with (R := mk ss cs); [apply Hok|].
    apply (repair_loop_repairs cs (mk ss cs)).
Qed.

(** C7, as the code has it.  In every registry built by the four
    operations, every key of a student's grades mapping is in that
    student's course list; each of the four operations preserves this,
    whatever its outcome, and [save_data] leaves the registry alone.
    [load_data] does not check the document: the property holds after it
    when every student record of the document satisfies it, and when the
    file cannot be read the registry is unchanged. *)
Theorem grades_within_courses_preserved :
  (forall R, reachable R -> grades_within_courses R) /\
  (forall R, grades_within_courses R ->
     (forall o, grades_within_courses (snd (run_op o R))) /\
     (forall f env, fst (snd (save_data f (R, env))) = R) /\
     (forall f env data,
         read_json f env = Ok data -> document_grades_ok data ->
         grades_within_courses (fst (snd (load_data f (R, env))))) /\
     (forall f env e,
         read_json f env = Raise e ->
         fst (snd (load_data f (R, env))) = R)).
Proof.
  split.
  - apply (reachable_ind_mutation grades_within_courses).
    + exact grades_within_courses_init.
    + exact grades_within_courses_mutation.
  - intros R HR. repeat split.
    + intros o. apply (mutations_preserve _ grades_within_courses_mutation R);
        [assumption|apply run_op_mutations].
    + intros f env. unfold save_data.
      destruct (existsb (String.eqb f) (unwritable env)); [reflexivity|].
      now destruct (ints_within_limit _).
    + intros f env data Hread Hdoc.
      rewrite (load_data_registry R f env data Hread).
      now apply grades_within_courses_rebuild.
    + intros f env e Hread. unfold load_data. now rewrite Hread.
Qed.

Lemma grades_within_courses_preserved_witness :
  grades_within_courses registry_graded /\
  grades_within_courses (snd (run_op (AddGrade "S1" "C1" "A") registry_graded)) /\
  grades_within_courses
    (fst (snd (load_data "f.json"
                 (registry_graded, env_with "f.json" (Doc doc_key_differs))))).
Proof.
  assert (H : grades_within_courses registry_graded).
  { apply (proj1 grades_within_courses_preserved).
    exact reachable_registry_graded. }
  split; [exact H|].
  destruct (proj2 grades_within_courses_preserved registry_graded H)
    as (Hop & _ & Hload & _).
  split; [apply Hop|].
  apply (Hload "f.json" _ doc_key_differs); [reflexivity|].
  intros sv sitems [= <-] [= <-] k sdata [[= <- <-]|[]] s [= <-] c Hc.
  discriminate Hc.
Defined.

(** C7 fails as stated: from the empty registry, where the property holds,
    [load_data] of a document in which Alice has a grade for "C1" and an
    empty course list succeeds and leaves a registry where it does not. *)
Lemma load_data_breaks_grades_within_courses :
  grades_within_courses init /\
  exists R',
    load_data "f.json" (init, env_with "f.json" (Doc doc_grade_without_course)) =
      (Ok tt, (R', print "Data loaded successfully."
                     (env_with "f.json" (Doc doc_grade_without_course)))) /\
    ~ grades_within_courses R'.
Proof.
  split; [exact grades_within_courses_init|].
  eexists. split; [reflexivity|].
  intros H.
  specialize (H "S1" _ eq_refl "C1" eq_refl). discriminate H.
Qed.

(** ** The repair on load *)

(** C8, as the code has it.  After [load_data] has succeeded, for every
    course [c] stored under a key [cc] of the loaded course collection and
    every student id listed in [c.students] that is a key of the loaded
    student collection, [cc] (the key, which the loop uses, not the
    course_code field of [c]) is in that student's course list.  Nothing
    is repaired in the other direction.  The loaded course collection is
    exactly what [from_dict] made of the document: no student is added to
    a course.  Every student the document holds is in the loaded
    collection with the course list of its record, to which the loop has
    at most appended codes: a code the record lists is still listed,
    whether or not the course of that code lists the student. *)
Theorem load_data_repairs_one_direction
    (R : t) (f : string) (env : Env) (R' : t) (env' : Env) :
  load_data f (R, env) = (Ok tt, (R', env')) ->
  (forall cc c, dict_get cc (courses R') = Some c ->
   exists sids,
     py_iter (Course.students c) = Ok sids /\
     forall k s, In (PStr k) sids -> dict_get k (students R') = Some s ->
                 enrolled cc s) /\
  (exists data sv sitems ss cv citems,
     read_json f env = Ok data /\
     py_get data "students" (PDict []) = Ok sv /\
     py_items sv = Ok sitems /\
     load_all Student.from_dict sitems [] = Ok ss /\
     py_get data "courses" (PDict []) = Ok cv /\
     py_items cv = Ok citems /\
     load_all Course.from_dict citems [] = Ok (courses R') /\
     forall k s0, dict_get k ss = Some s0 ->
     exists s',
       dict_get k (students R') = Some s' /\
       (Student.courses s' = Student.courses s0 \/
        exists l l', Student.courses s0 = PList l /\
                     Student.courses s' = PList (l ++ l')) /\
       forall code, enrolled code s0 -> enrolled code s').
Proof.
  intros Hload. destruct (load_data_Ok _ _ _ _ _ Hload) as (data & Hread & Hrun).
  destruct (rebuild_cases data R)
    as [[e He]|(sv & sitems & ss & Hsv & Hit & Hss & [[e He]|Hrest])];
    try congruence.
  destruct Hrest as (cv & citems & cs & Hcv & Hcit & Hcs & Hloop).
  rewrite Hrun in Hloop. symmetry in Hloop.
  assert (Hrep : repairs (mk ss cs) R').
  { replace R' with (snd (for_each cs repair_course (mk ss cs)))
      by now rewrite Hloop.
    apply repair_loop_repairs. }
  split.
  - intros cc c Hc.
    destruct (repair_loop_Ok (mk ss cs) R' Hloop cc c (dict_get_In _ _ _ Hc))
      as (sids & Hsids & Hl).
    exists sids. split; [assumption|]. intros k s Hin Hk.
    specialize (Hl _ Hin). unfold link_ok in Hl. simpl in Hl.
    now rewrite Hk in Hl.
  - exists data, sv, sitems, ss, cv, citems.
    destruct Hrep as [Hcs' Hg]. simpl in Hcs', Hg.
    do 6 (split; [assumption|]). split; [now rewrite Hcs'|].
    intros k s0 Hk. specialize (Hg k). rewrite Hk in Hg.
    destruct (dict_get k (students R')) as [s'|]; [|contradiction].
    exists s'. split; [reflexivity|]. split.
    + destruct Hg as [|l l' Hl]; [now left|].
      right. exists l, l'. now split.
    + intros code. now apply extends_enrolled.
Qed.

Lemma load_data_repairs_one_direction_witness :
  exists R',
    load_data "f.json" (init, env_with "f.json" (Doc doc_two_directions)) =
      (Ok tt, (R', print "Data loaded successfully."
                     (env_with "f.json" (Doc doc_two_directions)))) /\
    (forall cc c, dict_get cc (courses R') = Some c ->
     exists sids,
       py_iter (Course.students c) = Ok sids /\
       forall k s, In (PStr k) sids -> dict_get k (students R') = Some s ->
                   enrolled cc s) /\
    (exists data sv sitems ss cv citems,
       read_json "f.json" (env_with "f.json" (Doc doc_two_directions)) = Ok data /\
       py_get data "students" (PDict []) = Ok sv /\
       py_items sv = Ok sitems /\
       load_all Student.from_dict sitems [] = Ok ss /\
       py_get data "courses" (PDict []) = Ok cv /\
       py_items cv = Ok citems /\
       load_all Course.from_dict citems [] = Ok (courses R') /\
       forall k s0, dict_get k ss = Some s0 ->
       exists s',
         dict_get k (students R') = Some s' /\
         (Student.courses s' = Student.courses s0 \/
          exists l l', Student.courses s0 = PList l /\
                       Student.courses s' = PList (l ++ l')) /\
         forall code, enrolled code s0 -> enrolled code s').
Proof.
  eexists. split; [reflexivity|].
  eapply (load_data_repairs_one_direction init "f.json"
            (env_with "f.json" (Doc doc_two_directions))).
  reflexivity.
Defined.

(** On [doc_two_directions]: Bob, whom "C1" lists, gets "C1"; Alice, who
    lists "C1" and whom "C1" does not list, keeps "C1" and is not added
    to the course. *)
Example load_data_two_directions :
  exists R' s1 s2 c,
    load_data "f.json" (init, env_with "f.json" (Doc doc_two_directions)) =
      (Ok tt, (R', print "Data loaded successfully."
                     (env_with "f.json" (Doc doc_two_directions)))) /\
    dict_get "S1" (students R') = Some s1 /\
    Student.courses s1 = PList [PStr "C1"] /\
    dict_get "S2" (students R') = Some s2 /\
    Student.courses s2 = PList [PStr "C1"] /\
    dict_get "C1" (courses R') = Some c /\
    Course.students c = PList [PStr "S2"].
Proof.
  do 4 eexists. repeat split.
Qed.

(** C8 fails for the course_code field: in a document that stores the
    course with code "C1" under the key "K", the loop gives Alice the
    course "K"; the course lists her, and its code "C1" is not in her
    course list. *)
Lemma load_data_repairs_with_the_key :
  exists R' c s,
    load_data "f.json" (init, env_with "f.json" (Doc doc_key_differs)) =
      (Ok tt, (R', print "Data loaded successfully."
                     (env_with "f.json" (Doc doc_key_differs)))) /\
    dict_get "K" (courses R') = Some c /\
    Course.course_code c = PStr "C1" /\
    Course.students c = PList [PStr "S1"] /\
    dict_get "S1" (students R') = Some s /\
    Student.courses s = PList [PStr "K"] /\
    py_in "C1" (Student.courses s) = Ok false.
Proof.
  do 3 eexists. repeat split.
Qed.

(** The other direction is left alone: Alice lists "C1", the course "C1"
    lists nobody, and so it is after [load_data]. *)
Example load_data_keeps_student_side_only :
  exists R' c s,
    load_data "f.json" (init, env_with "f.json" (Doc doc_student_side_only)) =
      (Ok tt, (R', print "Data loaded successfully."
                     (env_with "f.json" (Doc doc_student_side_only)))) /\
    dict_get "S1" (students R') = Some s /\
    Student.courses s = PList [PStr "C1"] /\
    dict_get "C1" (courses R') = Some c /\
    Course.students c = PList [].
Proof.
  do 3 eexists. repeat split.
Qed.

(** ** Saving and loading back *)

(** *** Integers within the limit of the conversion *)

Lemma digits_within_spec n z :
  (0 <= z)%Z ->
  (digits_within (S n) z = true <-> (z < 10 ^ Z.of_nat (S n))%Z).
Proof.
  revert z. induction n as [|n IH]; intros z Hz.
  - simpl digits_within. change (10 ^ Z.of_nat 1)%Z with 10%Z.
    destruct (Z.ltb_spec z 10); split; intros; try lia; try discriminate;
      reflexivity.
  - change (digits_within (S (S n)) z)
      with (if Z.ltb z 10 then true else digits_within (S n) (z / 10)).
    replace (10 ^ Z.of_nat (S (S n)))%Z with (10 * 10 ^ Z.of_nat (S n))%Z
      by (rewrite (Nat2Z.inj_succ (S n)), Z.pow_succ_r; lia).
    assert (Hpow : (0 < 10 ^ Z.of_nat (S n))%Z) by (apply Z.pow_pos_nonneg; lia).
    destruct (Z.ltb_spec z 10) as [Hlt|Hge].
    + split; [lia|reflexivity].
    + rewrite (IH (z / 10)%Z) by (apply Z.div_pos; lia).
      pose proof (Z.div_mod z 10 ltac:(lia)) as Hdm.
      pose proof (Z.mod_pos_bound z 10 ltac:(lia)) as Hmod.
      generalize dependent (10 ^ Z.of_nat (S n))%Z. intros q _ Hq. lia.
Qed.

Lemma int_within_limit_spec z :
  int_within_limit z = true <-> (Z.abs z < 10 ^ 4300)%Z.
Proof.
  unfold int_within_limit, max_str_digits.
  change 4300%nat with (S 4299). rewrite digits_within_spec by lia.
  replace (Z.of_nat (S 4299)) with 4300%Z by lia. reflexivity.
Qed.

Lemma int_beyond_limit : int_within_limit (10 ^ 4300) = false.
Proof.
  destruct (int_within_limit (10 ^ 4300)) eqn:E; [|reflexivity].
  apply int_within_limit_spec in E.
  assert (H : (0 < 10 ^ 4300)%Z)
    by (apply Z.pow_pos_nonneg; [reflexivity | discriminate]).
  rewrite Z.abs_eq in E by (apply Z.lt_le_incl, H).
  exact (False_ind _ (Z.lt_irrefl _ E)).
Qed.

Lemma forallb_snd_map {A B : Type} (f : B -> bool) (g : string * A -> string * B)
    (l : list (string * A)) :
  forallb (fun kv => f (snd kv)) (map g l) =
  forallb (fun kv => f (snd (g kv))) l.
Proof. induction l as [|x l IH]; simpl; [reflexivity|now rewrite IH]. Qed.

Lemma forallb_pointwise {A : Type} (f g : A -> bool) (l : list A) :
  (forall x, f x = g x) -> forallb f l = forallb g l.
Proof.
  intros H. induction l as [|x l IH]; simpl; [reflexivity|now rewrite H, IH].
Qed.

Lemma ints_within_limit_dict d :
  ints_within_limit (PDict d) = forallb (fun kv => ints_within_limit (snd kv)) d.
Proof.
  simpl. induction d as [|[k v] d IH]; simpl; [reflexivity|now rewrite IH].
Qed.

Lemma student_to_dict_within_limit st :
  ints_within_limit (PDict (Student.to_dict st)) = student_within_limit st.
Proof.
  destruct st. unfold student_within_limit. rewrite ints_within_limit_dict.
  cbn -[ints_within_limit]. now rewrite andb_true_r, !andb_assoc.
Qed.

Lemma course_to_dict_within_limit co :
  ints_within_limit (PDict (Course.to_dict co)) = course_within_limit co.
Proof.
  destruct co. unfold course_within_limit. rewrite ints_within_limit_dict.
  cbn -[ints_within_limit]. now rewrite andb_true_r, !andb_assoc.
Qed.

(** [json.dump] accepts the document of a registry exactly when no integer
    stored in the registry is beyond the limit. *)
Lemma saved_document_within_limit R :
  dict_wf (students R) -> dict_wf (courses R) ->
  ints_within_limit (saved_document R) = registry_within_limit R.
Proof.
  intros HwS HwC. unfold saved_document, registry_within_limit.
  rewrite (dump_all_map _ _ HwS), (dump_all_map _ _ HwC).
  rewrite ints_within_limit_dict. cbn [forallb snd].
  rewrite !ints_within_limit_dict, !forallb_snd_map, andb_true_r.
  f_equal; apply forallb_pointwise; intros [k x]; cbn [snd fst].
  - apply student_to_dict_within_limit.
  - apply course_to_dict_within_limit.
Qed.

(** What [save_data] writes. *)
Lemma save_data_Ok R f env :
  existsb (String.eqb f) (unwritable env) = false ->
  ints_within_limit (saved_document R) = true ->
  exists env1,
    save_data f (R, env) = (Ok tt, (R, env1)) /\
    read_json f env1 = Ok (saved_document R).
Proof.
  intros Hw Hlim. unfold save_data. rewrite Hw.
  fold (saved_document R). rewrite Hlim. eexists. split; [reflexivity|].
  unfold read_json, print, write_file. cbn [files].
  now rewrite dict_get_set_eq, Hlim.
Qed.

(** With an integer beyond the limit in the registry, [save_data] raises
    ValueError and leaves a file that does not parse. *)
Lemma save_data_beyond_limit R f env :
  existsb (String.eqb f) (unwritable env) = false ->
  ints_within_limit (saved_document R) = false ->
  save_data f (R, env) =
    (Raise (ValueError IntStrDigitsLimit), (R, write_file f Malformed env)) /\
  read_json f (write_file f Malformed env) = Raise JSONDecodeError.
Proof.
  intros Hw Hlim. unfold save_data. rewrite Hw.
  fold (saved_document R). rewrite Hlim. split; [reflexivity|].
  unfold read_json, write_file. cbn [files]. now rewrite dict_get_set_eq.
Qed.

(** Rebuilding from the saved document of a registry whose links are in
    place gives that registry, whatever the registry was before. *)
Lemma rebuild_saved_document R R0 :
  dict_wf (students R) -> dict_wf (courses R) -> links_ok R ->
  rebuild (saved_document R) R0 = (Ok tt, R).
Proof.
  intros HwS HwC Hlinks.
  unfold rebuild, saved_document, bind, lift, get, put. simpl.
  rewrite (load_all_dump_all _ _ _ student_from_to_dict HwS).
  rewrite (load_all_dump_all _ _ _ course_from_to_dict HwC).
  simpl. unfold set_courses, set_students. simpl.
  replace (mk (students R) (courses R)) with R by now destruct R.
  exact (repair_loop_noop R Hlinks).
Qed.




(** * Further properties of the registry *)

(** ** Lookup errors of the composite operations *)

Lemma enroll_student_missing R s c :
  dict_get s (students R) = None ->
  enroll_student_in_course s c R = (Raise (KeyError (StudentIdNotFound s)), R).
Proof.
  intros Hs. unfold enroll_student_in_course. apply bind_Raise.
  unfold get_student, bind, get, raise. now rewrite Hs.
Qed.

Lemma enroll_course_missing R s c st :
  dict_get s (students R) = Some st ->
  dict_get c (courses R) = None ->
  enroll_student_in_course s c R = (Raise (KeyError (CourseCodeNotFound c)), R).
Proof.
  intros Hs Hc. unfold enroll_student_in_course.
  rewrite (bind_Ok _ _ _ _ _ (get_student_Some R s st Hs)).
  apply bind_Raise. unfold get_course, bind, get, raise. now rewrite Hc.
Qed.

(** X1. [enroll_student_in_course] looks the student up first: an id that is
    not in the registry raises the student's KeyError whether or not the
    course exists; with the student present, a code that is not in the
    registry raises the course's KeyError.  Nothing is changed. *)
Theorem enroll_not_found (R : t) (s c : string) :
  (dict_get s (students R) = None ->
   enroll_student_in_course s c R =
     (Raise (KeyError (StudentIdNotFound s)), R)) /\
  (forall st, dict_get s (students R) = Some st ->
   dict_get c (courses R) = None ->
   enroll_student_in_course s c R =
     (Raise (KeyError (CourseCodeNotFound c)), R)).
Proof.
  split.
  - apply enroll_student_missing.
  - apply enroll_course_missing.
Qed.

Lemma enroll_not_found_witness :
  enroll_student_in_course "S9" "C9" registry_alice_algo =
    (Raise (KeyError (StudentIdNotFound "S9")), registry_alice_algo) /\
  enroll_student_in_course "S1" "C9" registry_alice_algo =
    (Raise (KeyError (CourseCodeNotFound "C9")), registry_alice_algo).
Proof.
  split.
  - apply (proj1 (enroll_not_found registry_alice_algo "S9" "C9")).
    reflexivity.
  - apply (proj2 (enroll_not_found registry_alice_algo "S1" "C9") alice);
      reflexivity.
Defined.

(** X2. [add_grade_for_student] for an id that is not in the registry raises
    the student's KeyError, whatever the course and the grade, and changes
    nothing: the test of enrollment is not reached. *)
Theorem add_grade_student_not_found (R : t) (s c g : string) :
  dict_get s (students R) = None ->
  add_grade_for_student s c g R = (Raise (KeyError (StudentIdNotFound s)), R).
Proof.
  intros Hs. unfold add_grade_for_student. apply bind_Raise.
  unfold get_student, bind, get, raise. now rewrite Hs.
Qed.

Lemma add_grade_student_not_found_witness :
  dict_get "S9" (students registry_graded) = None /\
  add_grade_for_student "S9" "C1" "A" registry_graded =
    (Raise (KeyError (StudentIdNotFound "S9")), registry_graded).
Proof.
  split; [reflexivity|].
  apply (add_grade_student_not_found registry_graded "S9" "C1" "A").
  reflexivity.
Defined.

(** ** Enrollment is not rolled back *)

Lemma course_add_student_dup s co :
  py_in s (Course.students co) = Ok true ->
  Course.add_student s co =
    (Raise (ValueError (CourseAlreadyEnrolled s (Course.course_code co))), co).
Proof. intros H. run. now rewrite H. Qed.

(** X3. When the student does not list the course but the course already
    lists the student, [enroll_student_in_course] raises the ValueError of
    [Course.add_student] after [Student.enroll_course] has appended: the
    course list of the student stored under [s] is now the old one with
    the code appended, and the course collection is unchanged. *)
Theorem enroll_no_rollback
    (R : t) (s c : string) (st : Student.t) (co : Course.t) (l : list pyval) :
  dict_get s (students R) = Some st ->
  dict_get c (courses R) = Some co ->
  Student.courses st = PList l ->
  existsb (is_str c) l = false ->
  py_in s (Course.students co) = Ok true ->
  exists R' st',
    enroll_student_in_course s c R =
      (Raise (ValueError (CourseAlreadyEnrolled s (Course.course_code co))), R') /\
    dict_get s (students R') = Some st' /\
    Student.courses st' = PList (l ++ [PStr c]) /\
    courses R' = courses R.
Proof.
  intros Hs Hc Hl Hnl Hin.
  exists (enroll_student_side R s c st l),
         (Student.set_courses st (PList (l ++ [PStr c]))).
  repeat split; [|apply dict_get_set_eq].
  unfold enroll_student_in_course.
  rewrite (bind_Ok _ _ _ _ _ (get_student_Some R s st Hs)).
  rewrite (bind_Ok _ _ _ _ _ (get_course_Some R c co Hc)).
  rewrite (bind_Ok _ _ R tt (enroll_student_side R s c st l)).
  - apply on_course_unchanged with (co := co); [exact Hc|].
    now apply course_add_student_dup.
  - apply on_student_Some with (st := st); [exact Hs|].
    now apply enroll_course_new.
Qed.

Lemma enroll_no_rollback_witness :
  exists R' st',
    enroll_student_in_course "S1" "C1" registry_unlinked =
      (Raise (ValueError (CourseAlreadyEnrolled "S1" (PStr "C1"))), R') /\
    dict_get "S1" (students R') = Some st' /\
    Student.courses st' = PList [PStr "C1"] /\
    courses R' = courses registry_unlinked.
Proof.
  apply (enroll_no_rollback registry_unlinked "S1" "C1" alice
           (Course.set_students algo (PList [PStr "S1"])) []);
    reflexivity.
Defined.

(** How a call of [enroll_student_in_course] can end. *)
Lemma enroll_course_cases_absent c st :
  (exists e, Student.enroll_course c st = (Raise e, st)) \/
  (exists l, Student.courses st = PList l /\
             existsb (is_str c) l = false /\
             Student.enroll_course c st =
               (Ok tt, Student.set_courses st (PList (l ++ [PStr c])))).
Proof.
  run. destruct (Student.courses st) eqn:E; simpl; eauto.
  - destruct (is_substring c s); simpl; eauto.
  - destruct (existsb (is_str c) l) eqn:El; simpl; eauto 7.
  - destruct (dict_mem c d); simpl; eauto.
Qed.

Lemma course_add_student_cases_absent s co :
  (exists e, Course.add_student s co = (Raise e, co) /\
             forall m, Course.students co = PList m ->
                       existsb (is_str s) m = true) \/
  (exists m, Course.students co = PList m /\
             existsb (is_str s) m = false /\
             Course.add_student s co =
               (Ok tt, Course.set_students co (PList (m ++ [PStr s])))).
Proof.
  run. destruct (Course.students co) eqn:E; simpl;
    try (left; eexists; split; [reflexivity|discriminate]).
  - destruct (is_substring s s0); simpl;
      left; eexists; (split; [reflexivity|discriminate]).
  - destruct (existsb (is_str s) l) eqn:El; simpl.
    + left. eexists. split; [reflexivity|]. now intros m [= <-].
    + right. exists l. auto.
  - destruct (dict_mem s d); simpl;
      left; eexists; (split; [reflexivity|discriminate]).
Qed.

Lemma enroll_cases s c R :
  (exists e, enroll_student_in_course s c R = (Raise e, R)) \/
  exists st co l,
    dict_get s (students R) = Some st /\
    dict_get c (courses R) = Some co /\
    Student.courses st = PList l /\
    existsb (is_str c) l = false /\
    ((exists e,
         enroll_student_in_course s c R =
           (Raise e, enroll_student_side R s c st l) /\
         forall m, Course.students co = PList m ->
                   existsb (is_str s) m = true) \/
     (exists m,
         Course.students co = PList m /\
         existsb (is_str s) m = false /\
         enroll_student_in_course s c R =
           (Ok tt, enroll_both_sides R s c st co l m))).
Proof.
  destruct (dict_get s (students R)) as [st|] eqn:Hs.
  2:{ left. eexists. apply (enroll_student_missing R s c Hs). }
  destruct (dict_get c (courses R)) as [co|] eqn:Hc.
  2:{ left. eexists. apply (enroll_course_missing R s c st Hs Hc). }
  unfold enroll_student_in_course.
  rewrite (bind_Ok _ _ _ _ _ (get_student_Some R s st Hs)).
  rewrite (bind_Ok _ _ _ _ _ (get_course_Some R c co Hc)).
  destruct (enroll_course_cases_absent c st) as [[e He]|(l & Hl & Hnl & He)].
  { left. exists e.
    apply (bind_Raise _ _ _ _ _ (on_student_unchanged R s st _ _ Hs He)). }
  right. exists st, co, l. do 4 (split; [first [assumption|reflexivity]|]).
  rewrite (bind_Ok _ _ _ _ _ (on_student_Some R s st _ _ _ Hs He)).
  fold (enroll_student_side R s c st l).
  assert (Hc1 : dict_get c (courses (enroll_student_side R s c st l)) = Some co)
    by exact Hc.
  destruct (course_add_student_cases_absent s co)
    as [(e & Hco & Hm)|(m & Hm & Hnm & Hco)].
  - left. exists e. split; [|exact Hm].
    apply (on_course_unchanged _ c co _ _ Hc1 Hco).
  - right. exists m. do 2 (split; [assumption|]).
    apply (on_course_Some _ c co _ _ _ Hc1 Hco).
Qed.

(** Where every course lists only students that list it, an enrollment
    raises with nothing changed or succeeds on both sides: the half-done
    state of [enroll_no_rollback] does not arise. *)
Lemma consistent_enroll_cases s c R :
  enrollment_consistent R ->
  (exists e, enroll_student_in_course s c R = (Raise e, R)) \/
  exists st co l m,
    dict_get s (students R) = Some st /\
    dict_get c (courses R) = Some co /\
    Student.courses st = PList l /\
    existsb (is_str c) l = false /\
    Course.students co = PList m /\
    existsb (is_str s) m = false /\
    enroll_student_in_course s c R = (Ok tt, enroll_both_sides R s c st co l m).
Proof.
  intros (_ & _ & Hcons).
  destruct (enroll_cases s c R)
    as [He|(st & co & l & Hs & Hc & Hl & Hnl & [(e' & He & Hm)|(m & Hm & Hnm & He)])];
    [now left| |right; now exists st, co, l, m].
  exfalso.
  destruct (Hcons c co Hc) as (m & Hco & Hall).
  specialize (Hm m Hco). apply existsb_is_str in Hm.
  destruct (Hall _ Hm) as (k & st' & [= <-] & Hk & Hen).
  assert (st' = st) by congruence. subst st'.
  unfold enrolled in Hen. rewrite Hl in Hen. simpl in Hen. congruence.
Qed.

(** ** What the four operations maintain *)

Lemma add_student_cases name age address id R :
  (exists e, add_student name age address id R = (Raise e, R)) \/
  (dict_get id (students R) = None /\
   add_student name age address id R =
     (Ok tt,
      set_students R
        (dict_set id
           (Student.init (PStr name) (PInt age) (PStr address) (PStr id))
           (students R)))).
Proof.
  run. destruct (dict_mem id (students R)) eqn:E; [eauto|].
  right. split; [now apply dict_mem_false|reflexivity].
Qed.

Lemma add_course_cases name code instr R :
  (exists e, add_course name code instr R = (Raise e, R)) \/
  (dict_get code (courses R) = None /\
   add_course name code instr R =
     (Ok tt,
      set_courses R
        (dict_set code (Course.init (PStr name) (PStr code) (PStr instr))
           (courses R)))).
Proof.
  run. destruct (dict_mem code (courses R)) eqn:E; [eauto|].
  right. split; [now apply dict_mem_false|reflexivity].
Qed.

Lemma add_grade_for_student_cases s c g R :
  (exists e, add_grade_for_student s c g R = (Raise e, R)) \/
  exists st gd,
    dict_get s (students R) = Some st /\
    Student.grades st = PDict gd /\
    enrolled c st /\
    add_grade_for_student s c g R =
      (Ok tt,
       set_students R
         (dict_set s (Student.set_grades st (PDict (dict_set c (PStr g) gd)))
            (students R))).
Proof.
  unfold add_grade_for_student.
  destruct (dict_get s (students R)) as [st|] eqn:Hs.
  2:{ left. eexists. apply bind_Raise.
      unfold get_student, bind, get, raise. now rewrite Hs. }
  rewrite (bind_Ok _ _ _ _ _ (get_student_Some R s st Hs)).
  unfold bind at 1. unfold lift at 1.
  destruct (py_in c (Student.courses st)) as [[|]|e]; simpl;
    try (left; eexists; reflexivity).
  destruct (add_grade_cases c g st) as [[e He]|[gd [Hg [Hen He]]]].
  - left. exists e. apply (on_student_unchanged R s st _ _ Hs He).
  - right. exists st, gd. do 3 (split; [first [assumption|reflexivity]|]).
    apply (on_student_Some R s st _ _ _ Hs He).
Qed.

Lemma NoDup_snoc {A : Type} (l : list A) (x : A) :
  NoDup l -> ~ In x l -> NoDup (l ++ [x]).
Proof.
  intros Hnd Hx. apply NoDup_app; [assumption|repeat constructor; intros []|].
  intros a Ha [<-|[]]. contradiction.
Qed.

Lemma existsb_is_str_false x l : existsb (is_str x) l = false <-> ~ In (PStr x) l.
Proof.
  rewrite <- existsb_is_str. destruct (existsb (is_str x) l); split; congruence.
Qed.

Lemma sound_new_student R name age address id :
  sound R -> dict_get id (students R) = None ->
  sound (set_students R
           (dict_set id
              (Student.init (PStr name) (PInt age) (PStr address) (PStr id))
              (students R))).
Proof.
  intros (Hec & Hss & Hcn) Hid. split; [|split].
  - apply (enrollment_consistent_mutation R); [assumption|now constructor].
  - intros s st Hs. simpl in Hs.
    apply dict_get_set_inv in Hs as [[-> ->]|[_ Hs]].
    + exists []. repeat split; [constructor|intros v []].
    + exact (Hss s st Hs).
  - exact Hcn.
Qed.

Lemma sound_new_course R name code instr :
  sound R -> dict_get code (courses R) = None ->
  sound (set_courses R
           (dict_set code (Course.init (PStr name) (PStr code) (PStr instr))
              (courses R))).
Proof.
  intros (Hec & Hss & Hcn) Hcode. split; [|split].
  - apply (enrollment_consistent_mutation R); [assumption|now constructor].
  - intros s st Hs. destruct (Hss s st Hs) as (l & Hl & Hnd & Hall).
    exists l. do 2 (split; [assumption|]). intros v Hv.
    destruct (Hall v Hv) as (c & co & m & -> & Hc & Hm & Hin).
    exists c, co, m. repeat split; try assumption. simpl.
    rewrite dict_get_set_neq; [assumption|congruence].
  - intros c co Hc. simpl in Hc.
    apply dict_get_set_inv in Hc as [[-> ->]|[_ Hc]]; [|exact (Hcn c co Hc)].
    exists []. split; [reflexivity|constructor].
Qed.

Lemma sound_grade R s st gd c g :
  sound R -> dict_get s (students R) = Some st ->
  Student.grades st = PDict gd -> enrolled c st ->
  sound (set_students R
           (dict_set s (Student.set_grades st (PDict (dict_set c (PStr g) gd)))
              (students R))).
Proof.
  intros (Hec & Hss & Hcn) Hs Hg Hen. split; [|split].
  - apply (enrollment_consistent_mutation R); [assumption|now constructor].
  - intros s' x Hx. simpl in Hx.
    apply dict_get_set_inv in Hx as [[-> ->]|[_ Hx]].
    + exact (Hss s st Hs).
    + exact (Hss s' x Hx).
  - exact Hcn.
Qed.

Lemma sound_enroll_both R s c st co l m :
  sound R ->
  dict_get s (students R) = Some st ->
  dict_get c (courses R) = Some co ->
  Student.courses st = PList l ->
  existsb (is_str c) l = false ->
  Course.students co = PList m ->
  existsb (is_str s) m = false ->
  sound (enroll_both_sides R s c st co l m).
Proof.
  intros (Hec & Hss & Hcn) Hs Hc Hl Hnl Hm Hnm.
  apply existsb_is_str_false in Hnl. apply existsb_is_str_false in Hnm.
  split; [|split].
  - change (enroll_both_sides R s c st co l m)
      with (set_courses (enroll_student_side R s c st l)
              (dict_set c (Course.set_students co (PList (m ++ [PStr s])))
                 (courses (enroll_student_side R s c st l)))).
    apply (enrollment_consistent_mutation (enroll_student_side R s c st l)).
    + apply (enrollment_consistent_mutation R); [assumption|].
      now apply mut_student_enrolls.
    + apply mut_course_lists
        with (st := Student.set_courses st (PList (l ++ [PStr c])));
        try assumption.
      * apply dict_get_set_eq.
      * now apply enrolled_snoc.
  - intros s' x Hx. simpl in Hx.
    apply dict_get_set_inv in Hx as [[-> ->]|[Hne Hx]].
    + destruct (Hss s st Hs) as (l0 & Hl0 & Hnd & Hall).
      assert (l0 = l) by congruence. subst l0.
      exists (l ++ [PStr c]). split; [reflexivity|].
      split; [now apply NoDup_snoc|]. intros v Hv.
      apply in_app_or in Hv as [Hv|[<-|[]]].
      * destruct (Hall v Hv) as (c0 & co0 & m0 & -> & Hc0 & Hm0 & Hin).
        exists c0, co0, m0. repeat split; try assumption. simpl.
        rewrite dict_get_set_neq; [assumption|congruence].
      * eexists c, _, _. split; [reflexivity|]. simpl.
        split; [apply dict_get_set_eq|]. split; [reflexivity|].
        apply in_or_app. right. now left.
    + destruct (Hss s' x Hx) as (l0 & Hl0 & Hnd & Hall).
      exists l0. do 2 (split; [assumption|]). intros v Hv.
      destruct (Hall v Hv) as (c0 & co0 & m0 & -> & Hc0 & Hm0 & Hin).
      destruct (string_dec c c0) as [<-|Hne'].
      * assert (co0 = co) by congruence. subst co0.
        assert (m0 = m) by congruence. subst m0.
        eexists c, _, _. split; [reflexivity|]. simpl.
        split; [apply dict_get_set_eq|]. split; [reflexivity|].
        apply in_or_app. now left.
      * exists c0, co0, m0. repeat split; try assumption. simpl.
        now rewrite dict_get_set_neq.
  - intros c' x Hx. simpl in Hx.
    apply dict_get_set_inv in Hx as [[-> ->]|[_ Hx]]; [|exact (Hcn c' x Hx)].
    destruct (Hcn c co Hc) as (m0 & Hm0 & Hnd).
    assert (m0 = m) by congruence. subst m0.
    exists (m ++ [PStr s]). split; [reflexivity|now apply NoDup_snoc].
Qed.

Lemma sound_run_op o R : sound R -> sound (snd (run_op o R)).
Proof.
  intros HR. destruct o as [name age address id|name code instr|s c|s c g];
    simpl.
  - destruct (add_student_cases name age address id R) as [[e ->]|[Hid ->]];
      [exact HR|now apply sound_new_student].
  - destruct (add_course_cases name code instr R) as [[e ->]|[Hc ->]];
      [exact HR|now apply sound_new_course].
  - destruct (consistent_enroll_cases s c R (proj1 HR))
      as [[e ->]|(st & co & l & m & Hs & Hc & Hl & Hnl & Hm & Hnm & ->)];
      [exact HR|now apply sound_enroll_both].
  - destruct (add_grade_for_student_cases s c g R)
      as [[e ->]|(st & gd & Hs & Hg & Hen & ->)];
      [exact HR|now apply sound_grade].
Qed.

Lemma sound_init : sound init.
Proof.
  repeat split; try apply dict_wf_nil; intros k x; discriminate.
Qed.

Lemma reachable_sound R : reachable R -> sound R.
Proof.
  induction 1 as [|R o _ IH]; [exact sound_init|now apply sound_run_op].
Qed.

Lemma fields_typed_mutation R R' :
  fields_typed R -> mutation R R' -> fields_typed R'.
Proof.
  intros [HS HC] Hm.
  destruct Hm as [name age address id Hid|name code instr Hcode
                 |sid st l cc Hs Hl|cc co m sid st Hc Hm Hs Hen
                 |sid st g cc grade Hs Hg Hen];
    split; simpl; intros k x Hk; try (now apply HS); try (now apply HC);
    apply dict_get_set_inv in Hk as [[-> ->]|[_ Hk]];
    try (now apply HS); try (now apply HC).
  - exists name, age, address, []. repeat split. intros c v; discriminate.
  - exists name, instr. repeat split.
  - exact (HS sid st Hs).
  - exact (HC cc co Hc).
  - destruct (HS sid st Hs) as (n & a & ad & g0 & Hn & Ha & Had & Hid & Hg0 & Hv).
    assert (g0 = g) by congruence. subst g0.
    exists n, a, ad, (dict_set cc (PStr grade) g). repeat split; try assumption.
    intros c v Hcv.
    apply dict_get_set_inv in Hcv as [[-> ->]|[_ Hcv]]; [eauto|].
    exact (Hv c v Hcv).
Qed.

Lemma reachable_fields_typed R : reachable R -> fields_typed R.
Proof.
  revert R. apply (reachable_ind_mutation fields_typed).
  - split; intros k x; discriminate.
  - exact fields_typed_mutation.
Qed.

Lemma enroll_succeeds R s c st co l m :
  dict_get s (students R) = Some st ->
  dict_get c (courses R) = Some co ->
  Student.courses st = PList l ->
  existsb (is_str c) l = false ->
  Course.students co = PList m ->
  existsb (is_str s) m = false ->
  enroll_student_in_course s c R = (Ok tt, enroll_both_sides R s c st co l m).
Proof.
  intros Hs Hc Hl Hnl Hm Hnm. unfold enroll_student_in_course.
  rewrite (bind_Ok _ _ _ _ _ (get_student_Some R s st Hs)).
  rewrite (bind_Ok _ _ _ _ _ (get_course_Some R c co Hc)).
  rewrite (bind_Ok _ _ R tt (enroll_student_side R s c st l)).
  - change (enroll_both_sides R s c st co l m)
      with (set_courses (enroll_student_side R s c st l)
              (dict_set c (Course.set_students co (PList (m ++ [PStr s])))
                 (courses (enroll_student_side R s c st l)))).
    apply on_course_Some with (co := co); [exact Hc|].
    now apply course_add_student_new.
  - apply on_student_Some with (st := st); [exact Hs|].
    now apply enroll_course_new.
Qed.

Lemma enroll_student_dup R s c st co :
  dict_get s (students R) = Some st ->
  dict_get c (courses R) = Some co ->
  py_in c (Student.courses st) = Ok true ->
  enroll_student_in_course s c R =
    (Raise (ValueError (StudentAlreadyEnrolled (Student.student_id st) c)), R).
Proof.
  intros Hs Hc Hin. unfold enroll_student_in_course.
  rewrite (bind_Ok _ _ _ _ _ (get_student_Some R s st Hs)).
  rewrite (bind_Ok _ _ _ _ _ (get_course_Some R c co Hc)).
  apply bind_Raise. apply on_student_unchanged with (st := st); [exact Hs|].
  now apply enroll_course_dup.
Qed.

Lemma add_grade_not_enrolled R s c g st :
  dict_get s (students R) = Some st ->
  py_in c (Student.courses st) = Ok false ->
  add_grade_for_student s c g R = (Raise (ValueError (NotEnrolledIn s c)), R).
Proof.
  intros Hs Hin. unfold add_grade_for_student.
  rewrite (bind_Ok _ _ _ _ _ (get_student_Some R s st Hs)).
  unfold bind, lift, raise. now rewrite Hin.
Qed.

Lemma add_grade_succeeds R s c g st gd :
  dict_get s (students R) = Some st ->
  py_in c (Student.courses st) = Ok true ->
  Student.grades st = PDict gd ->
  add_grade_for_student s c g R =
    (Ok tt,
     set_students R
       (dict_set s (Student.set_grades st (PDict (dict_set c (PStr g) gd)))
          (students R))).
Proof.
  intros Hs Hin Hg. unfold add_grade_for_student.
  rewrite (bind_Ok _ _ _ _ _ (get_student_Some R s st Hs)).
  unfold bind at 1. unfold lift at 1. rewrite Hin. simpl.
  apply on_student_Some with (st := st); [exact Hs|].
  run. now rewrite Hin, Hg.
Qed.

(** ** Registries built by the four operations *)

(** X4. In a registry built by the four operations a call that raises raises
    ValueError or KeyError and leaves the registry as it was: the
    half-done enrollment of [enroll_no_rollback] needs a registry that was
    assembled otherwise, and no value has a type an operator rejects. *)
Theorem reachable_failure_atomic (R : t) (o : op) (e : exn) (R' : t) :
  reachable R ->
  run_op o R = (Raise e, R') ->
  R' = R /\ ((exists m, e = ValueError m) \/ (exists m, e = KeyError m)).
Proof.
  intros HR Hrun.
  destruct (reachable_sound R HR) as (Hec & Hss & _).
  destruct (reachable_fields_typed R HR) as [Hty _].
  destruct o as [name age address id|name code instr|s c|s c g];
    simpl in Hrun.
  - revert Hrun. run. destruct (dict_mem id (students R)); intros [= <- <-];
      eauto.
  - revert Hrun. run. destruct (dict_mem code (courses R)); intros [= <- <-];
      eauto.
  - destruct (dict_get s (students R)) as [st|] eqn:Hs.
    2:{ rewrite (enroll_student_missing R s c Hs) in Hrun.
        injection Hrun as <- <-. eauto. }
    destruct (dict_get c (courses R)) as [co|] eqn:Hc.
    2:{ rewrite (enroll_course_missing R s c st Hs Hc) in Hrun.
        injection Hrun as <- <-. eauto. }
    destruct (Hss s st Hs) as (l & Hl & _ & _).
    destruct (existsb (is_str c) l) eqn:Hnl.
    + rewrite (enroll_student_dup R s c st co Hs Hc) in Hrun
        by (rewrite Hl; simpl; now rewrite Hnl).
      injection Hrun as <- <-. eauto.
    + destruct (consistent_enroll_cases s c R Hec)
        as [[e' He]|(st' & co' & l' & m & _ & _ & _ & _ & _ & _ & He)];
        [|congruence].
      exfalso. destruct Hec as (_ & _ & Hcons).
      destruct (Hcons c co Hc) as (m & Hm & Hall).
      destruct (existsb (is_str s) m) eqn:Hnm.
      * apply existsb_is_str in Hnm.
        destruct (Hall _ Hnm) as (k & st' & [= <-] & Hk & Hen).
        assert (st' = st) by congruence. subst st'.
        unfold enrolled in Hen. rewrite Hl in Hen. simpl in Hen. congruence.
      * rewrite (enroll_succeeds R s c st co l m Hs Hc Hl Hnl Hm Hnm) in He.
        discriminate He.
  - destruct (dict_get s (students R)) as [st|] eqn:Hs.
    2:{ revert Hrun. unfold add_grade_for_student, get_student, bind, get, raise.
        rewrite Hs. intros [= <- <-]. eauto. }
    destruct (Hss s st Hs) as (l & Hl & _ & _).
    destruct (Hty s st Hs) as (_ & _ & _ & gd & _ & _ & _ & _ & Hg & _).
    destruct (existsb (is_str c) l) eqn:Hnl.
    + rewrite (add_grade_succeeds R s c g st gd Hs) in Hrun;
        [discriminate Hrun| |exact Hg].
      rewrite Hl. simpl. now rewrite Hnl.
    + rewrite (add_grade_not_enrolled R s c g st Hs) in Hrun
        by (rewrite Hl; simpl; now rewrite Hnl).
      injection Hrun as <- <-. eauto.
Qed.

Lemma reachable_failure_atomic_witness :
  reachable registry_graded /\
  run_op (Enroll "S1" "C1") registry_graded =
    (Raise (ValueError (StudentAlreadyEnrolled (PStr "S1") "C1")),
     registry_graded) /\
  registry_graded = registry_graded /\
  ((exists m, ValueError (StudentAlreadyEnrolled (PStr "S1") "C1") = ValueError m) \/
   (exists m, ValueError (StudentAlreadyEnrolled (PStr "S1") "C1") = KeyError m)).
Proof.
  split; [exact reachable_registry_graded|]. split; [reflexivity|].
  apply (reachable_failure_atomic registry_graded (Enroll "S1" "C1")
           (ValueError (StudentAlreadyEnrolled (PStr "S1") "C1"))
           registry_graded reachable_registry_graded).
  reflexivity.
Defined.

(** X5. In a registry built by the four operations the two sides of an
    enrollment agree: a student lists a course of the registry exactly
    when that course lists the student. *)
Theorem reachable_enrollment_bidirectional
    (R : t) (s c : string) (st : Student.t) (co : Course.t) :
  reachable R ->
  dict_get s (students R) = Some st ->
  dict_get c (courses R) = Some co ->
  (py_in c (Student.courses st) = Ok true <->
   py_in s (Course.students co) = Ok true).
Proof.
  intros HR Hs Hc.
  destruct (reachable_sound R HR) as ((_ & _ & Hcons) & Hss & _).
  destruct (Hss s st Hs) as (l & Hl & _ & Hall).
  destruct (Hcons c co Hc) as (m & Hm & Hallm).
  rewrite Hl, Hm. simpl. split; intros [= H]; f_equal.
  - apply existsb_is_str in H.
    destruct (Hall _ H) as (c0 & co0 & m0 & [= <-] & Hc0 & Hm0 & Hin).
    assert (co0 = co) by congruence. subst co0.
    assert (m0 = m) by congruence. subst m0.
    now apply existsb_is_str.
  - apply existsb_is_str in H.
    destruct (Hallm _ H) as (k & st' & [= <-] & Hk & Hen).
    assert (st' = st) by congruence. subst st'.
    unfold enrolled in Hen. rewrite Hl in Hen. simpl in Hen. congruence.
Qed.

Lemma reachable_enrollment_bidirectional_witness :
  reachable registry_graded /\
  (py_in "C1" (PList [PStr "C1"]) = Ok true <->
   py_in "S1" (PList [PStr "S1"]) = Ok true).
Proof.
  split; [exact reachable_registry_graded|].
  apply (reachable_enrollment_bidirectional registry_graded "S1" "C1"
           (Student.mk (PStr "Alice") (PInt 20) (PStr "X St") (PStr "S1")
              (PDict [("C1", PStr "B")]) (PList [PStr "C1"]))
           (Course.mk (PStr "Algo") (PStr "C1") (PStr "Dr. B")
              (PList [PStr "S1"]))
           reachable_registry_graded);
    reflexivity.
Defined.

(** X6. In a registry built by the four operations every student's course
    list is a list without duplicates of codes of courses of the
    registry, and every course's student list is a list without
    duplicates of ids of students of the registry. *)
Theorem reachable_lists_wellformed (R : t) :
  reachable R ->
  (forall s st, dict_get s (students R) = Some st ->
   exists l,
     Student.courses st = PList l /\ NoDup l /\
     forall v, In v l -> exists c, v = PStr c /\ dict_mem c (courses R) = true) /\
  (forall c co, dict_get c (courses R) = Some co ->
   exists m,
     Course.students co = PList m /\ NoDup m /\
     forall v, In v m -> exists s, v = PStr s /\ dict_mem s (students R) = true).
Proof.
  intros HR.
  destruct (reachable_sound R HR) as ((_ & _ & Hcons) & Hss & Hcn).
  split.
  - intros s st Hs. destruct (Hss s st Hs) as (l & Hl & Hnd & Hall).
    exists l. do 2 (split; [assumption|]). intros v Hv.
    destruct (Hall v Hv) as (c & co & m & -> & Hc & _).
    exists c. split; [reflexivity|]. unfold dict_mem. now rewrite Hc.
  - intros c co Hc. destruct (Hcons c co Hc) as (m & Hm & Hall).
    destruct (Hcn c co Hc) as (m' & Hm' & Hnd).
    assert (m' = m) by congruence. subst m'.
    exists m. do 2 (split; [assumption|]). intros v Hv.
    destruct (Hall v Hv) as (k & st & -> & Hk & _).
    exists k. split; [reflexivity|]. unfold dict_mem. now rewrite Hk.
Qed.

Lemma reachable_lists_wellformed_witness :
  reachable registry_graded /\
  (forall s st, dict_get s (students registry_graded) = Some st ->
   exists l,
     Student.courses st = PList l /\ NoDup l /\
     forall v, In v l ->
     exists c, v = PStr c /\ dict_mem c (courses registry_graded) = true) /\
  (forall c co, dict_get c (courses registry_graded) = Some co ->
   exists m,
     Course.students co = PList m /\ NoDup m /\
     forall v, In v m ->
     exists s, v = PStr s /\ dict_mem s (students registry_graded) = true).
Proof.
  split; [exact reachable_registry_graded|].
  apply (reachable_lists_wellformed registry_graded).
  exact reachable_registry_graded.
Defined.

(** ** What the operations leave alone *)

Lemma dict_keys_set_present {V : Type} (k : string) (v v' : V) (d : dict V) :
  dict_get k d = Some v -> dict_keys (dict_set k v' d) = dict_keys d.
Proof.
  intros H. rewrite dict_keys_set. unfold dict_mem. now rewrite H.
Qed.

(** X8. No operation removes or reorders an entity.  The keys of the student
    collection after a call are the keys before it, followed by the new id
    when the call is an [add_student] of an absent id; likewise the keys of
    the course collection and [add_course]. *)
Theorem run_op_keys (o : op) (R : t) :
  dict_keys (students (snd (run_op o R))) =
    dict_keys (students R) ++
    match o with
    | AddStudent _ _ _ id => if dict_mem id (students R) then [] else [id]
    | _ => []
    end /\
  dict_keys (courses (snd (run_op o R))) =
    dict_keys (courses R) ++
    match o with
    | AddCourse _ code _ => if dict_mem code (courses R) then [] else [code]
    | _ => []
    end.
Proof.
  destruct o as [name age address id|name code instr|s c|s c g]; simpl.
  - run. destruct (dict_mem id (students R)) eqn:E; simpl;
      rewrite ?dict_keys_set, ?E, ?app_nil_r; auto.
  - run. destruct (dict_mem code (courses R)) eqn:E; simpl;
      rewrite ?dict_keys_set, ?E, ?app_nil_r; auto.
  - rewrite !app_nil_r.
    destruct (enroll_cases s c R)
      as [[e ->]|(st & co & l & Hs & Hc & Hl & Hnl
                  & [(e & -> & _)|(m & Hm & Hnm & ->)])];
      simpl; auto.
    + split; [|reflexivity]. now apply dict_keys_set_present with (v := st).
    + split.
      * now apply dict_keys_set_present with (v := st).
      * now apply dict_keys_set_present with (v := co).
  - rewrite !app_nil_r.
    destruct (add_grade_for_student_cases s c g R)
      as [[e ->]|(st & gd & Hs & Hg & Hen & ->)]; simpl; auto.
    split; [|reflexivity]. now apply dict_keys_set_present with (v := st).
Qed.

Lemma set_courses_courses st : Student.set_courses st (Student.courses st) = st.
Proof. now destruct st. Qed.

Lemma set_students_students co : Course.set_students co (Course.students co) = co.
Proof. now destruct co. Qed.

Lemma set_grades_grades st : Student.set_grades st (Student.grades st) = st.
Proof. now destruct st. Qed.

(** X9. Whatever its outcome, [enroll_student_in_course s c] touches nothing
    but the course list of [s] and the student list of [c]: every other
    student and course is as before, and so are the other fields of [s]
    (its grades among them) and of [c]. *)
Theorem enroll_frame (R : t) (s c : string) :
  (forall k, k <> s ->
     dict_get k (students (snd (enroll_student_in_course s c R))) =
     dict_get k (students R)) /\
  (forall k, k <> c ->
     dict_get k (courses (snd (enroll_student_in_course s c R))) =
     dict_get k (courses R)) /\
  (forall st, dict_get s (students R) = Some st ->
     exists x,
       dict_get s (students (snd (enroll_student_in_course s c R))) =
       Some (Student.set_courses st x)) /\
  (forall co, dict_get c (courses R) = Some co ->
     exists x,
       dict_get c (courses (snd (enroll_student_in_course s c R))) =
       Some (Course.set_students co x)).
Proof.
  destruct (enroll_cases s c R)
    as [[e ->]|(st & co & l & Hs & Hc & Hl & Hnl
                & [(e & -> & _)|(m & Hm & Hnm & ->)])];
    simpl; repeat split; auto;
    try (intros k Hk; apply dict_get_set_neq; congruence).
  - intros st Hs. exists (Student.courses st). now rewrite set_courses_courses.
  - intros co Hc. exists (Course.students co). now rewrite set_students_students.
  - intros st' Hs'. assert (st' = st) by congruence. subst st'.
    eexists. apply dict_get_set_eq.
  - intros co' Hc'. exists (Course.students co').
    now rewrite set_students_students.
  - intros st' Hs'. assert (st' = st) by congruence. subst st'.
    eexists. apply dict_get_set_eq.
  - intros co' Hc'. assert (co' = co) by congruence. subst co'.
    eexists. apply dict_get_set_eq.
Qed.

(** X10. Whatever its outcome, [add_grade_for_student s c g] touches nothing
    but the grades of [s]: the course collection and every other student
    are as before, and the other fields of [s] keep their values. *)
Theorem add_grade_frame (R : t) (s c g : string) :
  courses (snd (add_grade_for_student s c g R)) = courses R /\
  (forall k, k <> s ->
     dict_get k (students (snd (add_grade_for_student s c g R))) =
     dict_get k (students R)) /\
  (forall st, dict_get s (students R) = Some st ->
     exists x,
       dict_get s (students (snd (add_grade_for_student s c g R))) =
       Some (Student.set_grades st x)).
Proof.
  destruct (add_grade_for_student_cases s c g R)
    as [[e ->]|(st & gd & Hs & Hg & Hen & ->)]; simpl; repeat split; auto.
  - intros st Hs. exists (Student.grades st). now rewrite set_grades_grades.
  - intros k Hk. apply dict_get_set_neq. congruence.
  - intros st' Hs'. assert (st' = st) by congruence. subst st'.
    eexists. apply dict_get_set_eq.
Qed.

(** ** The operations in sequence *)

(** X11. For an id and a code that are both new to the registry, adding the
    student, adding the course, enrolling and grading all succeed, one
    after the other, and leave the student with exactly that course and
    that grade and the course with exactly that student. *)
Theorem add_enroll_grade
    (R : t) (name : string) (age : Z) (address s cname c instr g : string) :
  dict_get s (students R) = None ->
  dict_get c (courses R) = None ->
  exists R',
    (add_student name age address s ;;
     add_course cname c instr ;;
     enroll_student_in_course s c ;;
     add_grade_for_student s c g)%sms R = (Ok tt, R') /\
    dict_get s (students R') =
      Some (Student.mk (PStr name) (PInt age) (PStr address) (PStr s)
              (PDict [(c, PStr g)]) (PList [PStr c])) /\
    dict_get c (courses R') =
      Some (Course.mk (PStr cname) (PStr c) (PStr instr) (PList [PStr s])).
Proof.
  intros Hs Hc.
  set (st0 := Student.init (PStr name) (PInt age) (PStr address) (PStr s)).
  set (co0 := Course.init (PStr cname) (PStr c) (PStr instr)).
  set (R1 := set_students R (dict_set s st0 (students R))).
  set (R2 := set_courses R1 (dict_set c co0 (courses R1))).
  assert (H1 : add_student name age address s R = (Ok tt, R1)).
  { destruct (add_student_cases name age address s R) as [[e He]|[_ He]];
      [|exact He].
    revert He. run. apply dict_mem_false in Hs. now rewrite Hs. }
  assert (H2 : add_course cname c instr R1 = (Ok tt, R2)).
  { destruct (add_course_cases cname c instr R1) as [[e He]|[_ He]];
      [|exact He].
    revert He. run. apply dict_mem_false in Hc. now rewrite Hc. }
  assert (Hs2 : dict_get s (students R2) = Some st0) by apply dict_get_set_eq.
  assert (Hc2 : dict_get c (courses R2) = Some co0) by apply dict_get_set_eq.
  pose proof (enroll_succeeds R2 s c st0 co0 [] [] Hs2 Hc2
                eq_refl eq_refl eq_refl eq_refl) as H3.
  set (R3 := enroll_both_sides R2 s c st0 co0 [] []) in *.
  set (st3 := Student.set_courses st0 (PList [PStr c])).
  assert (Hs3 : dict_get s (students R3) = Some st3) by apply dict_get_set_eq.
  assert (Hin : py_in c (Student.courses st3) = Ok true).
  { simpl. now rewrite String.eqb_refl. }
  pose proof (add_grade_succeeds R3 s c g st3 [] Hs3 Hin eq_refl) as H4.
  eexists. split; [|split].
  - rewrite (bind_Ok _ _ _ _ _ H1), (bind_Ok _ _ _ _ _ H2),
      (bind_Ok _ _ _ _ _ H3). exact H4.
  - simpl. apply dict_get_set_eq.
  - simpl. apply dict_get_set_eq.
Qed.

Lemma add_enroll_grade_witness :
  exists R',
    (add_student "Alice" 20 "X St" "S1" ;;
     add_course "Algo" "C1" "Dr. B" ;;
     enroll_student_in_course "S1" "C1" ;;
     add_grade_for_student "S1" "C1" "A")%sms init = (Ok tt, R') /\
    dict_get "S1" (students R') =
      Some (Student.mk (PStr "Alice") (PInt 20) (PStr "X St") (PStr "S1")
              (PDict [("C1", PStr "A")]) (PList [PStr "C1"])) /\
    dict_get "C1" (courses R') =
      Some (Course.mk (PStr "Algo") (PStr "C1") (PStr "Dr. B")
              (PList [PStr "S1"])).
Proof.
  apply (add_enroll_grade init "Alice" 20 "X St" "S1" "Algo" "C1" "Dr. B" "A");
    reflexivity.
Defined.

(** * Further properties of saving and loading *)

(** ** Which records can be rebuilt *)

(** X12. [Student.from_dict] succeeds exactly on a dict that has the keys
    name, age, address and student_id, and [Course.from_dict] exactly on a
    dict that has the keys course_name, course_code and instructor: the
    values are not looked at, and grades, courses and students may be
    missing. *)
Theorem from_dict_succeeds_iff (data : pyval) :
  ((exists x, Student.from_dict data = Ok x) <->
   exists d, data = PDict d /\
             dict_mem "name" d && dict_mem "age" d &&
             dict_mem "address" d && dict_mem "student_id" d = true) /\
  ((exists x, Course.from_dict data = Ok x) <->
   exists d, data = PDict d /\
             dict_mem "course_name" d && dict_mem "course_code" d &&
             dict_mem "instructor" d = true).
Proof.
  split; split.
  - intros [x Hx]. destruct data; try discriminate. exists d.
    split; [reflexivity|]. revert Hx.
    unfold Student.from_dict, py_getitem, dict_mem.
    destruct (dict_get "name" d); [|discriminate].
    destruct (dict_get "age" d); [|discriminate].
    destruct (dict_get "address" d); [|discriminate].
    destruct (dict_get "student_id" d); [|discriminate]. reflexivity.
  - intros (d & -> & H). revert H.
    unfold Student.from_dict, py_getitem, py_get, dict_mem.
    destruct (dict_get "name" d); [|discriminate].
    destruct (dict_get "age" d); [|discriminate].
    destruct (dict_get "address" d); [|discriminate].
    destruct (dict_get "student_id" d); [|discriminate]. intros _.
    destruct (dict_get "grades" d), (dict_get "courses" d); eauto.
  - intros [x Hx]. destruct data; try discriminate. exists d.
    split; [reflexivity|]. revert Hx.
    unfold Course.from_dict, py_getitem, dict_mem.
    destruct (dict_get "course_name" d); [|discriminate].
    destruct (dict_get "course_code" d); [|discriminate].
    destruct (dict_get "instructor" d); [|discriminate]. reflexivity.
  - intros (d & -> & H). revert H.
    unfold Course.from_dict, py_getitem, py_get, dict_mem.
    destruct (dict_get "course_name" d); [|discriminate].
    destruct (dict_get "course_code" d); [|discriminate].
    destruct (dict_get "instructor" d); [|discriminate]. intros _.
    destruct (dict_get "students" d); eauto.
Qed.

(** ** What load_data keeps of the previous state *)

Lemma rebuild_Ok_any data R R0 R' :
  rebuild data R = (Ok tt, R') -> rebuild data R0 = (Ok tt, R').
Proof.
  unfold rebuild, bind, lift, get, put.
  destruct (py_get data "students" (PDict [])) as [sv|e]; [|discriminate].
  destruct (py_get data "courses" (PDict [])) as [cv|e]; [|discriminate].
  destruct (py_items sv) as [sitems|e]; [|discriminate].
  destruct (load_all Student.from_dict sitems []) as [ss|e]; [|discriminate].
  destruct (py_items cv) as [citems|e]; [|discriminate].
  destruct (load_all Course.from_dict citems []) as [cs|e]; [|discriminate].
  simpl. auto.
Qed.

(** X14. A successful [load_data] replaces both collections: the registry it
    leaves does not depend on the registry it was called on. *)
Theorem load_data_discards_previous
    (R R0 : t) (f : string) (env : Env) (R' : t) (env' : Env) :
  load_data f (R, env) = (Ok tt, (R', env')) ->
  load_data f (R0, env) = (Ok tt, (R', env')).
Proof.
  unfold load_data. destruct (read_json f env) as [data|e]; [|discriminate].
  destruct (rebuild data R) as [[[]|e] R1] eqn:E; [|discriminate].
  intros [= <- <-]. now rewrite (rebuild_Ok_any data R R0 R1 E).
Qed.

Lemma load_data_discards_previous_witness :
  load_data "f.json" (init, env_with "f.json" (Doc doc_key_differs)) =
    (Ok tt, (snd (rebuild doc_key_differs init),
             print "Data loaded successfully."
               (env_with "f.json" (Doc doc_key_differs)))) /\
  load_data "f.json" (registry_graded, env_with "f.json" (Doc doc_key_differs)) =
    (Ok tt, (snd (rebuild doc_key_differs init),
             print "Data loaded successfully."
               (env_with "f.json" (Doc doc_key_differs)))).
Proof.
  split; [reflexivity|].
  apply (load_data_discards_previous init registry_graded "f.json"
           (env_with "f.json" (Doc doc_key_differs))).
  reflexivity.
Defined.

(** X15. When [load_data] raises, the environment is as before and the
    registry is in one of three states: as before; the student collection
    rebuilt from the document and the course collection as before; or
    both collections rebuilt from the document, some students having
    course codes appended by the consistency loop. *)
Theorem load_data_failure_states
    (R : t) (f : string) (env : Env) (e : exn) (R' : t) (env' : Env) :
  load_data f (R, env) = (Raise e, (R', env')) ->
  env' = env /\
  (R' = R \/
   exists data sv sitems ss,
     read_json f env = Ok data /\
     py_get data "students" (PDict []) = Ok sv /\
     py_items sv = Ok sitems /\
     load_all Student.from_dict sitems [] = Ok ss /\
     ((students R' = ss /\ courses R' = courses R) \/
      exists cv citems,
        py_get data "courses" (PDict []) = Ok cv /\
        py_items cv = Ok citems /\
        load_all Course.from_dict citems [] = Ok (courses R') /\
        grows ss (students R'))).
Proof.
  unfold load_data. destruct (read_json f env) as [data|e0] eqn:Hread.
  2:{ intros [= _ <- <-]. auto. }
  destruct (rebuild data R) as [[[]|e0] R1] eqn:E; [discriminate|].
  intros [= _ <- <-]. split; [reflexivity|].
  destruct (rebuild_cases data R)
    as [[e1 He]|(sv & sitems & ss & Hsv & Hit & Hss & Hrest)].
  { left. congruence. }
  right. exists data, sv, sitems, ss. do 4 (split; [first [assumption|reflexivity]|]).
  destruct Hrest as [[e1 He]|(cv & citems & cs & Hcv & Hcit & Hcs & Hloop)].
  - left. rewrite E in He. injection He as _ ->. now split.
  - right. exists cv, citems. do 2 (split; [assumption|]).
    pose proof (repair_loop_repairs cs (mk ss cs)) as [Hc Hg].
    rewrite <- Hloop, E in Hc, Hg. simpl in Hc, Hg.
    split; [now rewrite Hc|exact Hg].
Qed.

Lemma load_data_failure_states_witness :
  load_data "f.json"
    (registry_alice_algo, env_with "f.json" (Doc doc_course_without_fields)) =
    (Raise (KeyError (MissingKey "course_name")),
     (mk [] [("C1", algo)], env_with "f.json" (Doc doc_course_without_fields))) /\
  (mk [] [("C1", algo)] = registry_alice_algo \/
   exists data sv sitems ss,
     read_json "f.json" (env_with "f.json" (Doc doc_course_without_fields)) =
       Ok data /\
     py_get data "students" (PDict []) = Ok sv /\
     py_items sv = Ok sitems /\
     load_all Student.from_dict sitems [] = Ok ss /\
     ((students (mk [] [("C1", algo)]) = ss /\
       courses (mk [] [("C1", algo)]) = courses registry_alice_algo) \/
      exists cv citems,
        py_get data "courses" (PDict []) = Ok cv /\
        py_items cv = Ok citems /\
        load_all Course.from_dict citems [] =
          Ok (courses (mk [] [("C1", algo)])) /\
        grows ss (students (mk [] [("C1", algo)])))).
Proof.
  split; [reflexivity|].
  apply (load_data_failure_states registry_alice_algo "f.json"
           (env_with "f.json" (Doc doc_course_without_fields))
           (KeyError (MissingKey "course_name"))
           (mk [] [("C1", algo)])
           (env_with "f.json" (Doc doc_course_without_fields))).
  reflexivity.
Defined.

(** X16. A student record that cannot be rebuilt stops [load_data] before
    anything is assigned: the exception of [Student.from_dict] comes out
    and the registry is as before, course collection included. *)
Theorem load_data_bad_student_record
    (R : t) (f : string) (env : Env) (d sitems : dict pyval) (sv : pyval)
    (e : exn) :
  read_json f env = Ok (PDict d) ->
  py_get (PDict d) "students" (PDict []) = Ok sv ->
  py_items sv = Ok sitems ->
  load_all Student.from_dict sitems [] = Raise e ->
  load_data f (R, env) = (Raise e, (R, env)).
Proof.
  intros Hread Hsv Hit Hload. unfold load_data. rewrite Hread.
  unfold rebuild, bind, lift. rewrite Hsv.
  replace (py_get (PDict d) "courses" (PDict []))
    with (Ok (match dict_get "courses" d with Some x => x | None => PDict [] end))
    by (simpl; now destruct (dict_get "courses" d)).
  now rewrite Hit, Hload.
Qed.

Lemma load_data_bad_student_record_witness :
  load_data "f.json"
    (registry_graded, env_with "f.json" (Doc doc_student_without_fields)) =
    (Raise (KeyError (MissingKey "name")),
     (registry_graded, env_with "f.json" (Doc doc_student_without_fields))).
Proof.
  apply (load_data_bad_student_record registry_graded "f.json"
           (env_with "f.json" (Doc doc_student_without_fields))
           [("students", PDict [("S1", PDict [])]); ("courses", PDict [])]
           [("S1", PDict [])] (PDict [("S1", PDict [])])
           (KeyError (MissingKey "name")));
    reflexivity.
Defined.

(** ** Missing collections *)

(** X17. A document that is an object without the key "courses" loads as one
    with no course: the course collection is empty afterwards and the
    students are as [from_dict] rebuilt them, the consistency loop having
    nothing to run over. *)
Theorem load_data_without_courses
    (R : t) (f : string) (env : Env) (d sitems : dict pyval) (sv : pyval)
    (ss : dict Student.t) :
  read_json f env = Ok (PDict d) ->
  dict_get "courses" d = None ->
  py_get (PDict d) "students" (PDict []) = Ok sv ->
  py_items sv = Ok sitems ->
  load_all Student.from_dict sitems [] = Ok ss ->
  load_data f (R, env) =
    (Ok tt, (mk ss [], print "Data loaded successfully." env)).
Proof.
  intros Hread Hc Hsv Hit Hload. unfold load_data. rewrite Hread.
  unfold rebuild, bind, lift, get, put. rewrite Hsv. simpl.
  now rewrite Hc, Hit, Hload.
Qed.

Lemma load_data_without_courses_witness :
  load_data "f.json" (registry_graded, env_with "f.json" (Doc doc_students_only)) =
    (Ok tt,
     (mk [("S1", Student.set_courses alice (PList [PStr "C1"]))] [],
      print "Data loaded successfully."
        (env_with "f.json" (Doc doc_students_only)))).
Proof.
  apply (load_data_without_courses registry_graded "f.json"
           (env_with "f.json" (Doc doc_students_only))
           [("students",
             PDict [("S1", PDict (Student.to_dict
                                    (Student.set_courses alice (PList [PStr "C1"]))))])]
           [("S1", PDict (Student.to_dict
                            (Student.set_courses alice (PList [PStr "C1"]))))]
           (PDict [("S1", PDict (Student.to_dict
                                   (Student.set_courses alice (PList [PStr "C1"]))))]));
    reflexivity.
Defined.

(** ** Saving what was loaded *)

Lemma load_all_wf {A : Type} (from_dict : pyval -> result A) items :
  forall acc out, load_all from_dict items acc = Ok out ->
  dict_wf acc -> dict_wf out.
Proof.
  induction items as [|[k0 v0] items IH]; simpl; intros acc out Hrun Hwf.
  - now injection Hrun as <-.
  - destruct (from_dict v0) as [a0|e]; [|discriminate].
    apply (IH _ _ Hrun). now apply dict_wf_set.
Qed.

Lemma repair_link_keys cc sid R : same_student_keys R (snd (repair_link cc sid R)).
Proof.
  unfold same_student_keys, repair_link, bind, lift, get, ret, put.
  destruct (py_hash_key sid) as [[k|]|e]; simpl; auto.
  destruct (dict_get k (students R)) as [s|] eqn:Hk; simpl; auto.
  destruct (py_in cc (Student.courses s)) as [[|]|e]; simpl; auto.
  destruct (Student.courses s) eqn:Hc; simpl; auto.
  now apply dict_keys_set_present with (v := s).
Qed.

Lemma repair_loop_keys cs R :
  same_student_keys R (snd (for_each cs repair_course R)).
Proof.
  assert (Hrefl : forall X, same_student_keys X X) by reflexivity.
  assert (Htrans : forall X Y Z, same_student_keys X Y ->
                                 same_student_keys Y Z -> same_student_keys X Z).
  { unfold same_student_keys. intros X Y Z H1 H2. congruence. }
  apply for_each_Rel; try assumption.
  intros [cc c] X. unfold repair_course, bind, lift.
  destruct (py_iter (Course.students c)) as [sids|e]; [|apply Hrefl].
  apply for_each_Rel; try assumption. apply repair_link_keys.
Qed.

Lemma rebuild_Ok_wf data R R' :
  rebuild data R = (Ok tt, R') ->
  dict_wf (students R') /\ dict_wf (courses R') /\ links_ok R'.
Proof.
  intros Hrun.
  destruct (rebuild_cases data R)
    as [[e He]|(sv & sitems & ss & _ & _ & Hss & [[e He]|Hrest])];
    try congruence.
  destruct Hrest as (cv & citems & cs & _ & _ & Hcs & Hloop).
  rewrite Hrun in Hloop. symmetry in Hloop.
  pose proof (repair_loop_keys cs (mk ss cs)) as Hk.
  pose proof (repair_loop_repairs cs (mk ss cs)) as [Hc _].
  rewrite Hloop in Hk, Hc. unfold same_student_keys in Hk. simpl in Hk, Hc.
  repeat split.
  - unfold dict_wf. rewrite Hk.
    apply (load_all_wf _ _ _ _ Hss). apply dict_wf_nil.
  - rewrite Hc. apply (load_all_wf _ _ _ _ Hcs). apply dict_wf_nil.
  - apply (repair_loop_Ok (mk ss cs) R' Hloop).
Qed.

(** *** What was loaded is within the limit of the conversion *)

Lemma within_dict_get d k v :
  ints_within_limit (PDict d) = true -> dict_get k d = Some v ->
  ints_within_limit v = true.
Proof.
  rewrite ints_within_limit_dict, forallb_forall. intros H Hk.
  exact (H (k, v) (dict_get_In _ _ _ Hk)).
Qed.

Lemma py_get_within data k dflt v :
  ints_within_limit data = true -> ints_within_limit dflt = true ->
  py_get data k dflt = Ok v -> ints_within_limit v = true.
Proof.
  intros Hd Hdf. destruct data; try discriminate. unfold py_get.
  destruct (dict_get k d) as [x|] eqn:Hk; intros [= <-]; [|exact Hdf].
  exact (within_dict_get d k x Hd Hk).
Qed.

Lemma py_getitem_within data k v :
  ints_within_limit data = true ->
  py_getitem data k = Ok v -> ints_within_limit v = true.
Proof.
  intros Hd. destruct data; try discriminate. unfold py_getitem.
  destruct (dict_get k d) as [x|] eqn:Hk; [|discriminate]. intros [= <-].
  exact (within_dict_get d k x Hd Hk).
Qed.

Lemma py_items_within v d :
  ints_within_limit v = true -> py_items v = Ok d ->
  forallb (fun kv => ints_within_limit (snd kv)) d = true.
Proof.
  intros Hv. destruct v; try discriminate. intros [= <-].
  now rewrite <- ints_within_limit_dict.
Qed.

Lemma student_from_dict_within data st :
  ints_within_limit data = true -> Student.from_dict data = Ok st ->
  student_within_limit st = true.
Proof.
  intros Hd. unfold Student.from_dict.
  destruct (py_getitem data "name") as [n|] eqn:E1; [|discriminate].
  destruct (py_getitem data "age") as [a|] eqn:E2; [|discriminate].
  destruct (py_getitem data "address") as [ad|] eqn:E3; [|discriminate].
  destruct (py_getitem data "student_id") as [sid|] eqn:E4; [|discriminate].
  destruct (py_get data "grades" (PDict [])) as [g|] eqn:E5; [|discriminate].
  destruct (py_get data "courses" (PList [])) as [c|] eqn:E6; [|discriminate].
  intros [= <-]. unfold student_within_limit. cbn -[ints_within_limit].
  rewrite (py_getitem_within _ _ _ Hd E1), (py_getitem_within _ _ _ Hd E2),
    (py_getitem_within _ _ _ Hd E3), (py_getitem_within _ _ _ Hd E4),
    (py_get_within data "grades" (PDict []) g Hd eq_refl E5),
    (py_get_within data "courses" (PList []) c Hd eq_refl E6).
  reflexivity.
Qed.

Lemma course_from_dict_within data co :
  ints_within_limit data = true -> Course.from_dict data = Ok co ->
  course_within_limit co = true.
Proof.
  intros Hd. unfold Course.from_dict.
  destruct (py_getitem data "course_name") as [n|] eqn:E1; [|discriminate].
  destruct (py_getitem data "course_code") as [cc|] eqn:E2; [|discriminate].
  destruct (py_getitem data "instructor") as [i|] eqn:E3; [|discriminate].
  destruct (py_get data "students" (PList [])) as [ss|] eqn:E4; [|discriminate].
  intros [= <-]. unfold course_within_limit. cbn -[ints_within_limit].
  rewrite (py_getitem_within _ _ _ Hd E1), (py_getitem_within _ _ _ Hd E2),
    (py_getitem_within _ _ _ Hd E3),
    (py_get_within data "students" (PList []) ss Hd eq_refl E4).
  reflexivity.
Qed.

Lemma forallb_dict_set {V : Type} (P : V -> bool) k v (d : dict V) :
  forallb (fun kv => P (snd kv)) d = true -> P v = true ->
  forallb (fun kv => P (snd kv)) (dict_set k v d) = true.
Proof.
  intros Hd Hv. induction d as [|[k' v'] d IH]; simpl in *.
  - now rewrite Hv.
  - apply andb_true_iff in Hd as [H1 H2].
    destruct (String.eqb k k'); simpl; [now rewrite Hv|].
    now rewrite H1, IH.
Qed.

Lemma forallb_dict_get {V : Type} (P : V -> bool) k v (d : dict V) :
  forallb (fun kv => P (snd kv)) d = true -> dict_get k d = Some v ->
  P v = true.
Proof.
  rewrite forallb_forall. intros H Hk.
  exact (H (k, v) (dict_get_In _ _ _ Hk)).
Qed.

Lemma load_all_within {A : Type} (from_dict : pyval -> result A)
    (Q : A -> bool) :
  (forall v a, ints_within_limit v = true -> from_dict v = Ok a -> Q a = true) ->
  forall items acc out,
    forallb (fun kv => ints_within_limit (snd kv)) items = true ->
    forallb (fun kv => Q (snd kv)) acc = true ->
    load_all from_dict items acc = Ok out ->
    forallb (fun kv => Q (snd kv)) out = true.
Proof.
  intros HQ. induction items as [|[k v] items IH]; simpl; intros acc out Hi Ha.
  - now intros [= <-].
  - apply andb_true_iff in Hi as [Hv Hi].
    destruct (from_dict v) as [a|e] eqn:E; [|discriminate].
    apply IH; [assumption|]. apply forallb_dict_set; [assumption|].
    exact (HQ v a Hv E).
Qed.

Lemma repair_link_within cc sid R : keeps_within_limit R (snd (repair_link cc sid R)).
Proof.
  unfold keeps_within_limit, repair_link, bind, lift, get, ret, put.
  destruct (py_hash_key sid) as [[k|]|e]; simpl; auto.
  destruct (dict_get k (students R)) as [s|] eqn:Hk; simpl; auto.
  destruct (py_in cc (Student.courses s)) as [[|]|e]; simpl; auto.
  destruct (Student.courses s) as [| | | | |l|] eqn:Hc; simpl; auto.
  unfold registry_within_limit. cbn [students courses set_students].
  intros H. apply andb_true_iff in H as [HS HC]. rewrite HC, andb_true_r.
  apply forallb_dict_set; [assumption|].
  pose proof (forallb_dict_get _ _ _ _ HS Hk) as Hs.
  unfold student_within_limit in *. cbn -[ints_within_limit]. rewrite Hc in Hs.
  repeat (apply andb_true_iff in Hs as [Hs ?]).
  repeat (apply andb_true_iff; split); try assumption.
  cbn [ints_within_limit] in *. rewrite forallb_app.
  apply andb_true_iff. split; [assumption|reflexivity].
Qed.

Lemma repair_loop_within cs R :
  keeps_within_limit R (snd (for_each cs repair_course R)).
Proof.
  assert (Hrefl : forall X, keeps_within_limit X X) by (intros X H; exact H).
  assert (Htrans : forall X Y Z, keeps_within_limit X Y ->
                                 keeps_within_limit Y Z -> keeps_within_limit X Z)
    by (unfold keeps_within_limit; auto).
  apply for_each_Rel; try assumption.
  intros [cc c] X. unfold repair_course, bind, lift.
  destruct (py_iter (Course.students c)) as [sids|e]; [|apply Hrefl].
  apply for_each_Rel; try assumption. apply repair_link_within.
Qed.

Lemma rebuild_within_limit data R R' :
  ints_within_limit data = true -> rebuild data R = (Ok tt, R') ->
  registry_within_limit R' = true.
Proof.
  intros Hd Hrun.
  destruct (rebuild_cases data R)
    as [[e He]|(sv & sitems & ss & Hsv & Hit & Hss & [[e He]|Hrest])];
    try congruence.
  destruct Hrest as (cv & citems & cs & Hcv & Hcit & Hcs & Hloop).
  rewrite Hrun in Hloop. symmetry in Hloop.
  pose proof (repair_loop_within cs (mk ss cs)) as Hk.
  rewrite Hloop in Hk. apply Hk. unfold registry_within_limit.
  cbn [students courses]. apply andb_true_iff. split.
  - apply (load_all_within Student.from_dict student_within_limit
             student_from_dict_within sitems [] ss); [|reflexivity|exact Hss].
    apply (py_items_within sv); [|exact Hit].
    exact (py_get_within data "students" (PDict []) sv Hd eq_refl Hsv).
  - apply (load_all_within Course.from_dict course_within_limit
             course_from_dict_within citems [] cs); [|reflexivity|exact Hcs].
    apply (py_items_within cv); [|exact Hcit].
    exact (py_get_within data "courses" (PDict []) cv Hd eq_refl Hcv).
Qed.

Lemma read_json_Ok_within f env data :
  read_json f env = Ok data -> ints_within_limit data = true.
Proof.
  unfold read_json. destruct (dict_get f (files env)) as [[d|]|]; try discriminate.
  destruct (ints_within_limit d) eqn:E; [|discriminate]. now intros [= <-].
Qed.

(** X18. What [load_data] has loaded can be saved and loaded back unchanged:
    after a successful load, [save_data] to a file that can be written
    followed by [load_data] of that file, on any registry, gives the
    loaded registry again.  The consistency loop finds nothing left to
    repair the second time. *)
Theorem load_save_load
    (R R0 : t) (f g : string) (env : Env) (R' : t) (env' : Env) :
  load_data f (R, env) = (Ok tt, (R', env')) ->
  existsb (String.eqb g) (unwritable env') = false ->
  exists env1 env2,
    save_data g (R', env') = (Ok tt, (R', env1)) /\
    load_data g (R0, env1) = (Ok tt, (R', env2)).
Proof.
  intros Hload Hw.
  destruct (load_data_Ok _ _ _ _ _ Hload) as (data & Hread0 & Hrun).
  destruct (rebuild_Ok_wf data R R' Hrun) as (HwS & HwC & Hl).
  pose proof (rebuild_within_limit data R R'
                (read_json_Ok_within f env data Hread0) Hrun) as Hlim.
  rewrite <- (saved_document_within_limit R' HwS HwC) in Hlim.
  destruct (save_data_Ok R' g env' Hw Hlim) as (env1 & Hsave & Hread).
  exists env1. eexists. split; [exact Hsave|].
  unfold load_data. rewrite Hread.
  now rewrite (rebuild_saved_document R' R0 HwS HwC Hl).
Qed.

Lemma load_save_load_witness :
  exists env1 env2,
    save_data "g.json"
      (snd (rebuild doc_key_differs init),
       print "Data loaded successfully."
         (env_with "f.json" (Doc doc_key_differs))) =
      (Ok tt, (snd (rebuild doc_key_differs init), env1)) /\
    load_data "g.json" (registry_graded, env1) =
      (Ok tt, (snd (rebuild doc_key_differs init), env2)).
Proof.
  apply (load_save_load init registry_graded "f.json" "g.json"
           (env_with "f.json" (Doc doc_key_differs))); reflexivity.
Defined.

(** ** What save_data writes *)



(** * Properties of the display operations *)

Import Display.

Lemma all_strings_map ss : all_strings (map PStr ss) = Some ss.
Proof. induction ss as [|s ss IH]; simpl; [reflexivity|now rewrite IH]. Qed.

Lemma py_join_list_strings sep ss :
  py_join_list sep (map PStr ss) = Ok (String.concat sep ss).
Proof. unfold py_join_list. now rewrite all_strings_map. Qed.

Lemma lookup_names_known S ss :
  lookup_names S (map PStr ss) = Ok (names_of_known S ss).
Proof.
  induction ss as [|s ss IH]; simpl; [reflexivity|]. now rewrite IH.
Qed.

Lemma all_strings_nil l : all_strings l = Some [] -> l = [].
Proof.
  destruct l as [|v l]; [reflexivity|]. simpl.
  destruct v; try discriminate. now destruct (all_strings l).
Qed.

Lemma joined_or_None {S : Type} (ss : list string) (out : S) :
  (if py_truthy (PList (map PStr ss))
   then lift (py_join ", " (PList (map PStr ss)))
   else ret "None") out =
  (Ok (match ss with [] => "None" | _ => String.concat ", " ss end), out).
Proof.
  destruct ss as [|s ss]; [reflexivity|].
  cbn [py_truthy map]. unfold py_join, lift. cbn [py_iter].
  change (PStr s :: map PStr ss) with (map PStr (s :: ss)).
  now rewrite py_join_list_strings.
Qed.

Lemma display_course_info_lookup S co ss ns (out : console) :
  S <> [] ->
  Course.students co = PList (map PStr ss) ->
  all_strings (names_of_known S ss) = Some ns ->
  display_course_info co (Some S) out =
    (Ok tt,
     out ++ course_header co ++
     [[Text "Enrolled Students:"; Text " ";
       Text (match ns with [] => "None" | _ => String.concat ", " ns end)]]).
Proof.
  intros Hne Hco Hns. unfold display_course_info.
  destruct S as [|kv S]; [congruence|].
  unfold bind, print_line, lift, ret. rewrite Hco. simpl py_iter. cbv iota beta.
  rewrite lookup_names_known.
  destruct (names_of_known (kv :: S) ss) as [|n names] eqn:Hnames.
  - simpl in Hns. injection Hns as <-.
    unfold course_header. now rewrite <- !app_assoc.
  - unfold py_join_list. rewrite Hns.
    destruct ns as [|n0 ns'].
    + apply all_strings_nil in Hns. discriminate Hns.
    + unfold course_header. now rewrite <- !app_assoc.
Qed.

Lemma display_course_info_no_lookup co ss (out : console) :
  Course.students co = PList (map PStr ss) ->
  display_course_info co (Some []) out =
    (Ok tt,
     out ++ course_header co ++
     [[Text "Enrolled Students:"; Text " ";
       Text (match ss with [] => "None" | _ => String.concat ", " ss end)]]).
Proof.
  intros Hco. unfold display_course_info. rewrite Hco.
  unfold bind at 1 2 3 4 5. unfold print_line at 1 2 3 4.
  rewrite joined_or_None. unfold print_line, course_header.
  now rewrite <- !app_assoc.
Qed.

(** ** Unknown keys *)

(** X21. [display_student] of an id that is not in the registry, and
    [display_course] of a code that is not, raise the KeyError of the
    lookup and print nothing. *)
Theorem display_not_found (R : t) (k : string) (out : console) :
  (dict_get k (students R) = None ->
   display_student k R out = (Raise (KeyError (StudentIdNotFound k)), out)) /\
  (dict_get k (courses R) = None ->
   display_course k R out = (Raise (KeyError (CourseCodeNotFound k)), out)).
Proof.
  split; intros H.
  - unfold display_student, get_student, bind, get, raise. now rewrite H.
  - unfold display_course, get_course, bind, get, raise. now rewrite H.
Qed.

Lemma display_not_found_witness :
  display_student "S9" registry_graded [] =
    (Raise (KeyError (StudentIdNotFound "S9")), []) /\
  display_course "C9" registry_graded [] =
    (Raise (KeyError (CourseCodeNotFound "C9")), []).
Proof.
  split.
  - apply (proj1 (display_not_found registry_graded "S9" [])). reflexivity.
  - apply (proj2 (display_not_found registry_graded "C9" [])). reflexivity.
Defined.

(** ** The names a course display shows *)

(** X22. When the registry has at least one student, [display_course] shows,
    after the header, the names of those listed students that are in the
    registry, in the order of the list, joined by ", ", or "None" when
    there is none: an id the course lists that is not in the registry is
    left out, not shown. *)
Theorem display_course_names
    (R : t) (c : string) (co : Course.t) (ss ns : list string) (out : console) :
  students R <> [] ->
  dict_get c (courses R) = Some co ->
  Course.students co = PList (map PStr ss) ->
  all_strings (names_of_known (students R) ss) = Some ns ->
  display_course c R out =
    (Ok tt,
     out ++ course_header co ++
     [[Text "Enrolled Students:"; Text " ";
       Text (match ns with [] => "None" | _ => String.concat ", " ns end)]]).
Proof.
  intros Hne Hc Hco Hns.
  unfold display_course. rewrite (get_course_Some R c co Hc).
  now apply display_course_info_lookup with (ss := ss).
Qed.

Lemma display_course_names_witness :
  display_course "C1" registry_unknown_id [] =
    (Ok tt,
     course_header (Course.set_students algo (PList [PStr "S1"; PStr "S7"])) ++
     [[Text "Enrolled Students:"; Text " "; Text "Alice"]]).
Proof.
  apply (display_course_names registry_unknown_id "C1"
           (Course.set_students algo (PList [PStr "S1"; PStr "S7"]))
           ["S1"; "S7"] ["Alice"] []);
    try reflexivity.
  discriminate.
Defined.

(** X23. When the registry has no student at all, [display_course] takes the
    other branch and shows the listed ids themselves, joined by ", ", or
    "None" when the list is empty. *)
Theorem display_course_no_student
    (R : t) (c : string) (co : Course.t) (ss : list string) (out : console) :
  students R = [] ->
  dict_get c (courses R) = Some co ->
  Course.students co = PList (map PStr ss) ->
  display_course c R out =
    (Ok tt,
     out ++ course_header co ++
     [[Text "Enrolled Students:"; Text " ";
       Text (match ss with [] => "None" | _ => String.concat ", " ss end)]]).
Proof.
  intros HS Hc Hco.
  unfold display_course. rewrite (get_course_Some R c co Hc), HS.
  now apply display_course_info_no_lookup.
Qed.

Lemma display_course_no_student_witness :
  display_course "C1" registry_no_student [] =
    (Ok tt,
     course_header (Course.set_students algo (PList [PStr "S1"; PStr "S7"])) ++
     [[Text "Enrolled Students:"; Text " "; Text "S1, S7"]]).
Proof.
  apply (display_course_no_student registry_no_student "C1"
           (Course.set_students algo (PList [PStr "S1"; PStr "S7"]))
           ["S1"; "S7"] []);
    reflexivity.
Defined.

(** ** Displaying a registry built by the four operations *)

Lemma strings_of l :
  (forall v, In v l -> exists c, v = PStr c) -> exists cs, l = map PStr cs.
Proof.
  induction l as [|v l IH]; intros H; [now exists []|].
  destruct (H v (or_introl eq_refl)) as [c ->].
  destruct IH as [cs ->]; [intros w Hw; apply H; now right|].
  now exists (c :: cs).
Qed.

Lemma names_of_listed S m :
  (forall v, In v m ->
     exists k st n, v = PStr k /\ dict_get k S = Some st /\
                    Student.name st = PStr n) ->
  exists ss ns,
    m = map PStr ss /\
    Forall2 (fun s n => exists st, dict_get s S = Some st /\
                                   Student.name st = PStr n) ss ns /\
    names_of_known S ss = map PStr ns.
Proof.
  induction m as [|v m IH]; intros H.
  - exists [], []. repeat split. constructor.
  - destruct (H v (or_introl eq_refl)) as (k & st & n & -> & Hk & Hn).
    destruct IH as (ss & ns & -> & HF & Hnames);
      [intros w Hw; apply H; now right|].
    exists (k :: ss), (n :: ns). repeat split.
    + constructor; [now exists st|assumption].
    + simpl. now rewrite Hk, Hn, Hnames.
Qed.

(** X24. In a registry built by the four operations [display_course] of a
    course of the registry never raises: after the header it shows the
    name of every student the course lists, in the order of enrollment,
    joined by ", ", or "None" when nobody is enrolled. *)
Theorem display_course_reachable
    (R : t) (c : string) (co : Course.t) (out : console) :
  reachable R ->
  dict_get c (courses R) = Some co ->
  exists ss ns,
    Course.students co = PList (map PStr ss) /\
    Forall2 (fun s n => exists st, dict_get s (students R) = Some st /\
                                   Student.name st = PStr n) ss ns /\
    display_course c R out =
      (Ok tt,
       out ++ course_header co ++
       [[Text "Enrolled Students:"; Text " ";
         Text (match ns with [] => "None" | _ => String.concat ", " ns end)]]).
Proof.
  intros HR Hc.
  destruct (reachable_sound R HR) as ((_ & _ & Hcons) & _ & _).
  destruct (reachable_fields_typed R HR) as [Hty _].
  destruct (Hcons c co Hc) as (m & Hm & Hall).
  destruct (names_of_listed (students R) m) as (ss & ns & -> & HF & Hnames).
  { intros v Hv. destruct (Hall v Hv) as (k & st & -> & Hk & _).
    destruct (Hty k st Hk) as (n & _ & _ & _ & Hn & _). now exists k, st, n. }
  exists ss, ns. do 2 (split; [assumption|]).
  unfold display_course. rewrite (get_course_Some R c co Hc).
  destruct (students R) as [|kv S] eqn:HS.
  - inversion HF as [|s n ss' ns' (st & Hst & _) _]; subst.
    + now apply (display_course_info_no_lookup co [] out).
    + discriminate Hst.
  - apply display_course_info_lookup with (ss := ss);
      [discriminate|assumption|].
    rewrite Hnames. apply all_strings_map.
Qed.

Lemma display_course_reachable_witness :
  reachable registry_graded /\
  exists ss ns,
    PList [PStr "S1"] = PList (map PStr ss) /\
    Forall2 (fun s n => exists st,
                 dict_get s (students registry_graded) = Some st /\
                 Student.name st = PStr n) ss ns /\
    display_course "C1" registry_graded [] =
      (Ok tt,
       course_header (Course.set_students algo (PList [PStr "S1"])) ++
       [[Text "Enrolled Students:"; Text " ";
         Text (match ns with [] => "None" | _ => String.concat ", " ns end)]]).
Proof.
  split; [exact reachable_registry_graded|].
  apply (display_course_reachable registry_graded "C1"
           (Course.set_students algo (PList [PStr "S1"])) []
           reachable_registry_graded).
  reflexivity.
Defined.

Lemma display_student_info_typed n a ad s g cs (out : console) :
  int_within_limit a = true ->
  display_student_info
    (Student.mk (PStr n) (PInt a) (PStr ad) (PStr s) (PDict g)
       (PList (map PStr cs))) out =
    (Ok tt,
     out ++
     [[Text "Student Information:"];
      [Text "Name: "; Shown (PStr n)];
      [Text "Age: "; Shown (PInt a)];
      [Text "Address: "; Shown (PStr ad)];
      [Text "ID: "; Shown (PStr s)];
      [Text "Enrolled Courses:"; Text " ";
       Text (match cs with [] => "None" | _ => String.concat ", " cs end)];
      [Text "Grades:"; Text " ";
       match g with [] => Text "{}" | _ => Shown (PDict g) end]]).
Proof.
  intros Ha.
  unfold display_student_info, display_person_info, py_format.
  cbn [Student.courses Student.grades Student.student_id Student.as_person
       Person.name Person.age Person.address Student.name Student.age
       Student.address ints_within_limit].
  rewrite Ha.
  unfold bind at 1. unfold print_line at 1.
  unfold bind at 1. unfold bind at 1. unfold print_line at 1.
  unfold bind at 1. unfold lift at 1.
  unfold bind at 1. unfold print_line at 1. unfold print_line at 1.
  unfold bind at 1. unfold print_line at 1.
  unfold bind at 1. rewrite joined_or_None.
  unfold bind, print_line. rewrite <- !app_assoc. simpl. now destruct g.
Qed.

Lemma display_student_info_long_age n a ad s g cs (out : console) :
  int_within_limit a = false ->
  display_student_info
    (Student.mk (PStr n) (PInt a) (PStr ad) (PStr s) (PDict g)
       (PList (map PStr cs))) out =
    (Raise (ValueError IntStrDigitsLimit),
     out ++
     [[Text "Student Information:"];
      [Text "Name: "; Shown (PStr n)]]).
Proof.
  intros Ha.
  unfold display_student_info, display_person_info, py_format.
  cbn [Student.courses Student.grades Student.student_id Student.as_person
       Person.name Person.age Person.address Student.name Student.age
       Student.address ints_within_limit].
  rewrite Ha.
  unfold bind, print_line, lift. now rewrite <- !app_assoc.
Qed.

(** X25. In a registry built by the four operations [display_student] of a
    student of the registry whose age has at most 4300 digits never
    raises and prints seven lines: the title, name, age, address and id as
    they were given to [add_student], the codes of the student's courses
    in the order of enrollment joined by ", " (or "None"), and the grades
    mapping (or "{}" when it is empty).  When the age has more than 4300
    digits it prints the title and the name and raises the ValueError of
    the conversion. *)
Theorem display_student_reachable
    (R : t) (s : string) (st : Student.t) (out : console) :
  reachable R ->
  dict_get s (students R) = Some st ->
  exists n a ad g cs,
    st = Student.mk (PStr n) (PInt a) (PStr ad) (PStr s) (PDict g)
           (PList (map PStr cs)) /\
    (int_within_limit a = true ->
     display_student s R out =
       (Ok tt,
        out ++
        [[Text "Student Information:"];
         [Text "Name: "; Shown (PStr n)];
         [Text "Age: "; Shown (PInt a)];
         [Text "Address: "; Shown (PStr ad)];
         [Text "ID: "; Shown (PStr s)];
         [Text "Enrolled Courses:"; Text " ";
          Text (match cs with [] => "None" | _ => String.concat ", " cs end)];
         [Text "Grades:"; Text " ";
          match g with [] => Text "{}" | _ => Shown (PDict g) end]])) /\
    (int_within_limit a = false ->
     display_student s R out =
       (Raise (ValueError IntStrDigitsLimit),
        out ++
        [[Text "Student Information:"];
         [Text "Name: "; Shown (PStr n)]])).
Proof.
  intros HR Hs.
  destruct (reachable_sound R HR) as (_ & Hss & _).
  destruct (reachable_fields_typed R HR) as [Hty _].
  destruct (Hty s st Hs) as (n & a & ad & g & Hn & Ha & Had & Hid & Hg & _).
  destruct (Hss s st Hs) as (l & Hl & _ & Hall).
  destruct (strings_of l) as [cs ->].
  { intros v Hv. destruct (Hall v Hv) as (c & _ & _ & -> & _). now exists c. }
  exists n, a, ad, g, cs.
  assert (Hst : st = Student.mk (PStr n) (PInt a) (PStr ad) (PStr s) (PDict g)
                       (PList (map PStr cs))).
  { destruct st; simpl in *; congruence. }
  split; [exact Hst|].
  unfold display_student. rewrite (get_student_Some R s st Hs). subst st.
  split; intros Hlim.
  - now apply display_student_info_typed.
  - now apply display_student_info_long_age.
Qed.

Lemma display_student_reachable_witness :
  display_student "S1" registry_graded [] =
    (Ok tt,
     [[Text "Student Information:"];
      [Text "Name: "; Shown (PStr "Alice")];
      [Text "Age: "; Shown (PInt 20)];
      [Text "Address: "; Shown (PStr "X St")];
      [Text "ID: "; Shown (PStr "S1")];
      [Text "Enrolled Courses:"; Text " "; Text "C1"];
      [Text "Grades:"; Text " "; Shown (PDict [("C1", PStr "B")])]]) /\
  display_student "S1" registry_long_age [] =
    (Raise (ValueError IntStrDigitsLimit),
     [[Text "Student Information:"];
      [Text "Name: "; Shown (PStr "Alice")]]).
Proof.
  split.
  - destruct (display_student_reachable registry_graded "S1"
                (Student.mk (PStr "Alice") (PInt 20) (PStr "X St") (PStr "S1")
                   (PDict [("C1", PStr "B")]) (PList [PStr "C1"]))
                [] reachable_registry_graded eq_refl)
      as (n & a & ad & g & cs & Hst & Hok & _).
    injection Hst as <- <- <- <- Hcs.
    destruct cs as [|c0 [|c1 cs]]; try discriminate Hcs.
    injection Hcs as <-.
    apply Hok. reflexivity.
  - destruct (display_student_reachable registry_long_age "S1"
                (Student.mk (PStr "Alice") (PInt (10 ^ 4300)) (PStr "X St")
                   (PStr "S1") (PDict []) (PList []))
                [] (reachable_run_ops _ _ reachable_init) eq_refl)
      as (n & a & ad & g & cs & Hst & _ & Hlong).
    injection Hst as <- <- <- <- Hcs.
    apply Hlong. exact int_beyond_limit.
Defined.

(** * Further properties of the dictionary forms *)

(** X13. [Person.from_dict(Person.to_dict(p))] rebuilds [p], and the
    dictionary form of a Student can be read as a Person:
    [Person.from_dict] of it rebuilds the name, age and address of the
    student and ignores the rest. *)
Theorem person_from_dict_to_dict :
  (forall p : Person.t, Person.from_dict (PDict (Person.to_dict p)) = Ok p) /\
  (forall st : Student.t,
      Person.from_dict (PDict (Student.to_dict st)) = Ok (Student.as_person st)).
Proof.
  split; intros []; reflexivity.
Qed.

(** * Saving a registry built by the four operations *)





(** A registry built by the four operations with an age of 4301 digits:
    [save_data] raises ValueError and the file it leaves does not parse. *)
Example save_data_long_age :
  reachable registry_long_age /\
  save_data "f.json" (registry_long_age, env_empty) =
    (Raise (ValueError IntStrDigitsLimit),
     (registry_long_age, write_file "f.json" Malformed env_empty)) /\
  load_data "f.json" (init, write_file "f.json" Malformed env_empty) =
    (Raise JSONDecodeError, (init, write_file "f.json" Malformed env_empty)).
Proof.
  split; [apply reachable_run_ops; constructor|].
  split; [|reflexivity].
  apply (save_data_beyond_limit registry_long_age "f.json" env_empty);
    [reflexivity|].
  rewrite saved_document_within_limit by (repeat constructor; intros []).
  unfold registry_within_limit, registry_long_age, student_within_limit.
  cbn -[ints_within_limit Z.pow]. cbn [ints_within_limit].
  now rewrite int_beyond_limit.
Qed.
